(** * complyctl: result correlation of the OpenSCAP plugin server and
      the plugin option map of the complytime package

    A shallow embedding of
    - [cmd/openscap-plugin/server] : [parseCheck], [mapResultStatus],
      the [checks] set and [PluginServer.GetResults];
    - [internal/complytime/plugins.go] : [PluginOptions.ToMap].

    Go strings are byte sequences and are modelled by [string] (a list of
    8-bit [ascii]); Go maps by stdpp's [gmap]; a Go result pair
    [(v, err)] by a Rocq pair whose second component is [option error]
    ([None] is the nil error). *)

From Stdlib Require Import Strings.String Strings.Ascii NArith.
From stdpp Require Import gmap strings list.

Local Open Scope string_scope.
Set Warnings "-register-all".

(* ===================================================================== *)
(** ** The part of the Go standard library the two packages call          *)
(* ===================================================================== *)

Module Go.

(** Error values.  [errors.New] carries its text; [fmt.Errorf] is kept
    with its format and its operands, so that the verbs [%q] and [%w] need
    no rendering. *)
Inductive error : Type :=
| errors_New (text : string)
| fmt_Errorf (format : string) (args : list fmt_arg)
with fmt_arg : Type :=
| arg_string (s : string)
| arg_error (e : error).

(** *** strings.TrimSpace

    [TrimSpace] removes the leading and the trailing white space "as
    defined by Unicode".  A rune decoded at the front (or at the back) of a
    string is white space exactly when the bytes there are the UTF-8
    encoding of one of the code points of [unicode.White_Space]: an
    ill-formed or overlong sequence decodes to U+FFFD, which is no space.
    The three predicates below list those encodings by length. *)

Definition byte_is (b : ascii) (n : N) : bool := N.eqb (N_of_ascii b) n.

Definition byte_in (b : ascii) (lo hi : N) : bool :=
  N.leb lo (N_of_ascii b) && N.leb (N_of_ascii b) hi.

(** U+0009..U+000D and U+0020. *)
Definition space1 (b0 : ascii) : bool :=
  byte_in b0 9 13 || byte_is b0 32.

(** U+0085 (C2 85) and U+00A0 (C2 A0). *)
Definition space2 (b0 b1 : ascii) : bool :=
  byte_is b0 194 && (byte_is b1 133 || byte_is b1 160).

(** U+1680 (E1 9A 80); U+2000..U+200A, U+2028, U+2029, U+202F
    (E2 80 80..8A, A8, A9, AF); U+205F (E2 81 9F); U+3000 (E3 80 80). *)
Definition space3 (b0 b1 b2 : ascii) : bool :=
  (byte_is b0 225 && byte_is b1 154 && byte_is b2 128)
  || (byte_is b0 226 && byte_is b1 128
      && (byte_in b2 128 138 || byte_is b2 168 || byte_is b2 169
          || byte_is b2 175))
  || (byte_is b0 226 && byte_is b1 129 && byte_is b2 159)
  || (byte_is b0 227 && byte_is b1 128 && byte_is b2 128).

Section Trim.
(** One-, two- and three-byte tokens to strip from the front. *)
Variable p1 : ascii -> bool.
Variable p2 : ascii -> ascii -> bool.
Variable p3 : ascii -> ascii -> ascii -> bool.

Fixpoint trimFront (s : list ascii) : list ascii :=
  match s with
  | [] => []
  | b0 :: t0 =>
      if p1 b0 then trimFront t0
      else
        match t0 with
        | [] => s
        | b1 :: t1 =>
            if p2 b0 b1 then trimFront t1
            else
              match t1 with
              | [] => s
              | b2 :: t2 => if p3 b0 b1 b2 then trimFront t2 else s
              end
        end
  end.
End Trim.

(** [strings.TrimLeftFunc(s, unicode.IsSpace)] on the bytes of [s]. *)
Definition trimLeftSpace (s : list ascii) : list ascii :=
  trimFront space1 space2 space3 s.

(** [strings.TrimRightFunc(s, unicode.IsSpace)]: the same scan from the
    last byte backwards, so the tokens are read in reverse. *)
Definition trimRightSpace (s : list ascii) : list ascii :=
  rev (trimFront space1
                 (fun b1 b0 => space2 b0 b1)
                 (fun b2 b1 b0 => space3 b0 b1 b2)
                 (rev s)).

Definition TrimSpace (s : string) : string :=
  string_of_list_ascii
    (trimRightSpace (trimLeftSpace (list_ascii_of_string s))).

(** *** regexp

    The fragment of [regexp/syntax] that [ovalRegex] is built from.  The
    pattern is compiled without flags, so [^] and [$] are the text anchors,
    [.] is any character but line feed, and a negated class does match a
    line feed.  Every literal and every excluded character of the pattern
    is ASCII; a match therefore starts and ends between runes and matching
    byte by byte gives the submatches Go reports. *)

Inductive Single : Type :=
| Literal (c : ascii)          (* c *)
| NotChar (c : ascii)          (* [^c] *)
| AnyCharNotNL.                (* . *)

Inductive Regexp : Type :=
| OpBeginText                            (* ^ *)
| OpEndText                              (* $ *)
| OpOne (p : Single)
| OpLazyStar (p : Single)                (* p*? *)
| OpCapture (index : nat) (sub : Regexp) (* ( sub ) *)
| OpConcat (subs : list Regexp).

Definition LF : ascii := ascii_of_nat 10.

Definition single_matches (p : Single) (c : ascii) : bool :=
  match p with
  | Literal x => Ascii.eqb c x
  | NotChar x => negb (Ascii.eqb c x)
  | AnyCharNotNL => negb (Ascii.eqb c LF)
  end.

(** Submatch positions: group index to (start, end) byte offsets. *)
Abbreviation captures := (gmap nat (nat * nat)).

(** Backtracking matcher with the leftmost-first preference of Go's
    [regexp]: a lazy star first tries the rest of the pattern and takes
    one more character only when that fails.  [k] is the rest of the
    pattern, [s] the unread input and [pos] its offset in the text. *)
Fixpoint run (r : Regexp)
    (k : list ascii -> nat -> captures -> option captures)
    (s : list ascii) (pos : nat) (caps : captures) {struct r}
    : option captures :=
  match r with
  | OpBeginText => if Nat.eqb pos 0 then k s pos caps else None
  | OpEndText => match s with [] => k s pos caps | _ :: _ => None end
  | OpOne p =>
      match s with
      | c :: s' => if single_matches p c then k s' (S pos) caps else None
      | [] => None
      end
  | OpLazyStar p =>
      (fix star (s : list ascii) (pos : nat) {struct s} : option captures :=
         match k s pos caps with
         | Some m => Some m
         | None =>
             match s with
             | c :: s' => if single_matches p c then star s' (S pos) else None
             | [] => None
             end
         end) s pos
  | OpCapture i sub =>
      run sub (fun s' pos' caps' => k s' pos' (<[i := (pos, pos')]> caps'))
          s pos caps
  | OpConcat subs =>
      (fix seq (rs : list Regexp)
           (k : list ascii -> nat -> captures -> option captures) {struct rs} :=
         match rs with
         | [] => k
         | r1 :: rest => run r1 (seq rest k)
         end) subs k s pos caps
  end.

(** The unanchored search: the leftmost start position that matches. *)
Fixpoint search (r : Regexp) (s : list ascii) (pos : nat) : option captures :=
  match run (OpCapture 0 r) (fun _ _ caps => Some caps) s pos ∅ with
  | Some m => Some m
  | None =>
      match s with
      | [] => None
      | _ :: s' => search r s' (S pos)
      end
  end.

Fixpoint NumSubexp (r : Regexp) : nat :=
  match r with
  | OpCapture _ sub => S (NumSubexp sub)
  | OpConcat subs => foldr (fun r n => NumSubexp r + n) 0 subs
  | _ => 0
  end.

(** [s[lo:hi]]. *)
Definition slice (s : list ascii) (lo hi : nat) : list ascii :=
  take (hi - lo) (drop lo s).

(** [re.FindStringSubmatch(s)]: nil when there is no match, else the text
    of the whole match followed by the text of each group. *)
Definition FindStringSubmatch (re : Regexp) (s : string) : list string :=
  let text := list_ascii_of_string s in
  match search re text 0 with
  | None => []
  | Some caps =>
      map (fun i =>
             match caps !! i with
             | Some (lo, hi) => string_of_list_ascii (slice text lo hi)
             | None => ""
             end)
          (seq 0 (S (NumSubexp re)))
  end.

End Go.

(* ===================================================================== *)
(** ** github.com/antchfx/xmlquery: the parsed document                   *)
(* ===================================================================== *)

Module xmlquery.

Inductive NodeType : Type :=
| DocumentNode | DeclarationNode | ElementNode | TextNode
| CharDataNode | CommentNode | AttributeNode | NotationNode.

#[global] Instance NodeType_eq_dec : EqDecision NodeType.
Proof. solve_decision. Defined.

(** [Attr]: the attribute's [xml.Name] (Space, Local) and its value. *)
Record Attr : Type := mkAttr {
  Name_Space : string;
  Name_Local : string;
  Value : string
}.

(** [Node].  The sibling and parent pointers of the Go struct are the
    tree structure here; nothing in the two packages writes to a node. *)
Inductive Node : Type := mkNode {
  Type_ : NodeType;
  Data : string;
  Prefix : string;
  Attrs : list Attr;
  Children : list Node
}.

(** A name as [strings.Index(name, ":")] splits it: the text before the
    first colon (when the colon is not the first byte) and the rest. *)
Definition splitName (name : string) : string * string :=
  match String.index 0 ":" name with
  | Some (S i) =>
      (String.substring 0 (S i) name,
       String.substring (S (S i)) (String.length name - S (S i)) name)
  | _ => ("", name)
  end.

(** [n.SelectAttr(name)]: the value of the first attribute with that
    name, the empty string when there is none. *)
Definition SelectAttr (n : Node) (name : string) : string :=
  let '(space, local) := splitName name in
  match List.find (fun a => bool_decide (Name_Local a = local)
                            && bool_decide (Name_Space a = space))
                  (Attrs n) with
  | Some a => Value a
  | None => ""
  end.

(** [n.InnerText()]: the text and character data below [n], in document
    order; comments are left out. *)
Fixpoint InnerText (n : Node) : string :=
  match Type_ n with
  | TextNode | CharDataNode => Data n
  | CommentNode => ""
  | _ =>
      (fix texts (cs : list Node) : string :=
         match cs with
         | [] => ""
         | c :: cs' => InnerText c +:+ texts cs'
         end) (Children n)
  end.

(** The nodes strictly below [n], in document order. *)
Fixpoint descendants (n : Node) : list Node :=
  (fix below (cs : list Node) : list Node :=
     match cs with
     | [] => []
     | c :: cs' => c :: descendants c ++ below cs'
     end) (Children n).

(** The name test of a location step: an element whose prefix and local
    name are those written in the step. *)
Definition nameTest (prefix local : string) (n : Node) : bool :=
  bool_decide (Type_ n = ElementNode)
  && bool_decide (Data n = local)
  && bool_decide (Prefix n = prefix).

(** The two shapes of XPath expression the packages use.  [//name] finds
    the matching nodes below the node the query is run on (the navigator's
    root is that node); [name] alone is a step along the child axis. *)
Definition Find (top : Node) (expr : string) : list Node :=
  match expr with
  | String "/" (String "/" name) =>
      let '(prefix, local) := splitName name in
      List.filter (nameTest prefix local) (descendants top)
  | _ =>
      let '(prefix, local) := splitName expr in
      List.filter (nameTest prefix local) (Children top)
  end.

Definition SelectElements (n : Node) (name : string) : list Node := Find n name.

(** [n.SelectElement(name)]: the first node found, nil when none. *)
Definition SelectElement (n : Node) (name : string) : option Node :=
  head (Find n name).

End xmlquery.

(* ===================================================================== *)
(** ** compliance-to-policy-go/v2/policy: the types GetResults fills      *)
(* ===================================================================== *)

Module policy.

(** [time.Time] values, as opaque instants. *)
Definition time_Time : Type := Z.

(** The members of [policy.Result] the server names. *)
Inductive Result : Type :=
| ResultInvalid | ResultError | ResultPass | ResultFail.

Record Check : Type := mkCheck {
  ID : string;
  Description : string
}.

(** One entry of a [Policy]: a rule (of which only the identifier is kept)
    and the checks declared for it. *)
Record RuleSet : Type := mkRuleSet {
  Rule_ID : string;
  Checks : list Check
}.

Definition Policy : Type := list RuleSet.

Record Property : Type := mkProperty {
  Name : string;
  Value : string
}.

Record Link : Type := mkLink {
  Href : string;
  Link_Description : string
}.

Record Subject : Type := mkSubject {
  Subject_Title : string;
  Type_ : string;
  ResourceID : string;
  EvaluatedOn : time_Time;
  Result_ : Result;
  Reason : string;
  Props : list Property
}.

Record ObservationByCheck : Type := mkObservationByCheck {
  Title : string;
  Methods : list string;
  Collected : time_Time;
  CheckID : string;
  Subjects : list Subject;
  RelevantEvidences : list Link
}.

Record PVPResult : Type := mkPVPResult {
  ObservationsByCheck : list ObservationByCheck
}.

End policy.

(* ===================================================================== *)
(** ** cmd/openscap-plugin/config: the settings GetResults reads          *)
(* ===================================================================== *)

Module config.

Record FilesConfig : Type := mkFiles { ARF : string }.
Record ParametersConfig : Type := mkParameters { Profile : string }.

(** The fields of [config.Config] that [GetResults] reads. *)
Record Config : Type := mkConfig {
  Files : FilesConfig;
  Parameters : ParametersConfig
}.

End config.

(* ===================================================================== *)
(** ** cmd/openscap-plugin/server                                         *)
(* ===================================================================== *)

Module server.
Import Go xmlquery.

(** [^[^:]*?:[^-]*?-(.*?):.*?$] *)
Definition ovalRegex : Regexp :=
  OpConcat
    [ OpBeginText;
      OpLazyStar (NotChar ":"); OpOne (Literal ":");
      OpLazyStar (NotChar "-"); OpOne (Literal "-");
      OpCapture 1 (OpLazyStar AnyCharNotNL); OpOne (Literal ":");
      OpLazyStar AnyCharNotNL;
      OpEndText ].

Definition ovalCheckType : string :=
  "http://oval.mitre.org/XMLSchema/oval-definitions-5".

Record PluginServer : Type := mkPluginServer { Config : config.Config }.

(** What [GetResults] obtains from outside the package: the scan, the file
    system, the XML parser, the rule index of package [xccdf] and the
    clock.  [time_Now n] is the instant returned by the call of [time.Now]
    that [n] calls precede. *)
Record World : Type := mkWorld {
  scan_ScanSystem : config.Config -> string -> option error;
  filepath_Clean : string -> string;
  os_Open : string -> string + error;
  utils_ParseContent : string -> Node + error;
  xccdf_NewRuleHashTable : Node -> gmap string Node;
  time_Now : nat -> policy.time_Time
}.

(** [checks] is a set of check identifiers, written as a Go map from
    string to the empty struct. *)
Abbreviation checks := (gmap string unit).

Definition newChecks : checks := ∅.

Definition LoadPolicy (c : checks) (oscalPolicy : policy.Policy) : checks :=
  foldl (fun c rule =>
           foldl (fun c check => <[policy.ID check := tt]> c)
                 c (policy.Checks rule))
        c oscalPolicy.

Definition Has (c : checks) (check : string) : bool :=
  match c !! check with
  | Some _ => true
  | None => false
  end.

(** [parseCheck] returns the check short name without the OVAL-specific
    naming from a rule in results. *)
Definition parseCheck (check : Node) : string * option error :=
  let ovalCheckName := TrimSpace (SelectAttr check "name") in
  if String.eqb ovalCheckName "" then
    ("", Some (errors_New "check-content-ref node has no 'name' attribute"))
  else
    let matches := FindStringSubmatch ovalRegex ovalCheckName in
    let minimumPart := 2 in
    let shortNameLoc := 1 in
    if Nat.ltb (length matches) minimumPart then
      ("", Some (fmt_Errorf "check id %q is in unexpected format"
                            [arg_string ovalCheckName]))
    else
      let trimmedCheckName := nth shortNameLoc matches "" in
      (trimmedCheckName, None).

Definition mapResultStatus (result : Node) : policy.Result * option error :=
  match SelectElement result "result" with
  | None =>
      (policy.ResultInvalid,
       Some (errors_New "result node has no 'result' attribute"))
  | Some resultEl =>
      let token := InnerText resultEl in
      if String.eqb token "pass" || String.eqb token "fixed" then
        (policy.ResultPass, None)
      else if String.eqb token "fail" then
        (policy.ResultFail, None)
      else if String.eqb token "notselected"
              || String.eqb token "notapplicable" then
        (policy.ResultError, None)
      else if String.eqb token "error" || String.eqb token "unknown" then
        (policy.ResultError, None)
      else
        (policy.ResultInvalid,
         Some (fmt_Errorf "couldn't match %s" [arg_string token]))
  end.

(** The inner loop of [GetResults]: the [check-content-ref] child of the
    first check of the OVAL system, and nothing after it. *)
Fixpoint firstOvalRef (checkEls : list Node) : option Node :=
  match checkEls with
  | [] => None
  | check :: rest =>
      if String.eqb (SelectAttr check "system") ovalCheckType then
        SelectElement check "xccdf-1.2:check-content-ref"
      else firstOvalRef rest
  end.

(** The text the reason quotes.  [mapResultStatus] has returned without
    error when this is evaluated, so the element is there. *)
Definition resultText (result : Node) : string :=
  match SelectElement result "result" with
  | Some resultEl => InnerText resultEl
  | None => ""
  end.

Definition newObservation (w : World) (s : PluginServer) (tick : nat)
    (ruleIDRef ovalCheck target : string) (mappedResult : policy.Result)
    (result : Node) : policy.ObservationByCheck :=
  {| policy.Title := ruleIDRef;
     policy.Methods := ["AUTOMATED"];
     policy.Collected := time_Now w tick;
     policy.CheckID := ovalCheck;
     policy.Subjects :=
       [ {| policy.Subject_Title := "Host " +:+ target;
            policy.Type_ := "inventory-item";
            policy.ResourceID := target;
            policy.EvaluatedOn := time_Now w (S tick);
            policy.Result_ := mappedResult;
            policy.Reason := "openscap rule-result is " +:+ resultText result;
            policy.Props :=
              [ {| policy.Name := "hostname"; policy.Value := target |} ] |} ];
     policy.RelevantEvidences :=
       [ {| policy.Href := "file://" +:+ config.ARF (config.Files (Config s));
            policy.Link_Description := "ARF_FILE" |} ] |}.

(** The loop over the rule-result nodes.  [pvpResults] holds what has been
    appended so far, [tick] counts the calls of [time.Now]. *)
Fixpoint forResults (w : World) (s : PluginServer) (policyChecks : checks)
    (target : string) (ruleTable : gmap string Node) (results : list Node)
    (pvpResults : policy.PVPResult) (tick : nat)
    : policy.PVPResult * option error :=
  match results with
  | [] => (pvpResults, None)
  | result :: rest =>
      let ruleIDRef := SelectAttr result "idref" in
      match ruleTable !! ruleIDRef with
      | None =>
          forResults w s policyChecks target ruleTable rest pvpResults tick
      | Some rule =>
          match firstOvalRef (SelectElements rule "//xccdf-1.2:check") with
          | None =>
              forResults w s policyChecks target ruleTable rest pvpResults tick
          | Some ovalRefEl =>
              match parseCheck ovalRefEl with
              | (_, Some err) => (policy.mkPVPResult [], Some err)
              | (ovalCheck, None) =>
                  if Has policyChecks ovalCheck then
                    match mapResultStatus result with
                    | (_, Some err) => (policy.mkPVPResult [], Some err)
                    | (mappedResult, None) =>
                        let observation :=
                          newObservation w s tick ruleIDRef ovalCheck target
                                         mappedResult result in
                        forResults w s policyChecks target ruleTable rest
                          (policy.mkPVPResult
                             (policy.ObservationsByCheck pvpResults
                              ++ [observation]))
                          (S (S tick))
                    end
                  else
                    forResults w s policyChecks target ruleTable rest
                               pvpResults tick
              end
          end
      end
  end.

Definition GetResults (w : World) (s : PluginServer)
    (oscalPolicy : policy.Policy) : policy.PVPResult * option error :=
  let pvpResults := policy.mkPVPResult [] in
  let policyChecks := newChecks in
  match scan_ScanSystem w (Config s)
                        (config.Profile (config.Parameters (Config s))) with
  | Some err => (policy.mkPVPResult [], Some err)
  | None =>
      let policyChecks := LoadPolicy policyChecks oscalPolicy in
      match os_Open w (filepath_Clean w
                         (config.ARF (config.Files (Config s)))) with
      | inr err => (policy.mkPVPResult [], Some err)
      | inl file =>
          match utils_ParseContent w file with
          | inr err => (policy.mkPVPResult [], Some err)
          | inl xmlnode =>
              match SelectElement xmlnode "//target" with
              | None =>
                  (policy.mkPVPResult [],
                   Some (errors_New "result has no 'target' attribute"))
              | Some targetEl =>
                  let target := InnerText targetEl in
                  let ruleTable := xccdf_NewRuleHashTable w xmlnode in
                  let results := SelectElements xmlnode "//rule-result" in
                  forResults w s policyChecks target ruleTable results
                             pvpResults 0
              end
          end
      end
  end.

(** Modelled from the spec: [xccdf.NewRuleHashTable], whose source is not
    part of the files at hand.  The spec describes the rule index as a
    mapping from rule identifier to rule definition, built once from the
    parsed document, with rule nodes addressable by identifier.  The rule
    nodes are taken to be the XCCDF [Rule] elements and the identifier
    their [id] attribute; on a repeated identifier the later node is kept
    (the spec leaves that case open). *)
Definition NewRuleHashTable (xmlnode : Node) : gmap string Node :=
  foldl (fun table rule => <[SelectAttr rule "id" := rule]> table)
        ∅ (SelectElements xmlnode "//xccdf-1.2:Rule").

End server.

(* ===================================================================== *)
(** ** internal/complytime: plugins.go                                    *)
(* ===================================================================== *)

Module complytime.
Import Go.

(** [PluginOptions] defines global options all complytime plugins should
    support. *)
Record PluginOptions : Type := mkPluginOptions {
  Workspace : string;
  Profile : string;
  UserConfigRoot : string
}.

(** [plugin.ConfigurationOption]; [Default] is a [*string], nil when the
    manifest gives none. *)
Record ConfigurationOption : Type := mkConfigurationOption {
  Name : string;
  Description : string;
  Required : bool;
  Default : option string
}.

(** [plugin.Manifest], of which [ToMap] reads the configuration only. *)
Record Manifest : Type := mkManifest {
  Configuration : list ConfigurationOption
}.

(** Lines handed to the [hclog.Logger], by level. *)
Inductive Level : Type := LevelDebug | LevelWarn.
Definition LogLine : Type := (Level * string)%type.

(** What [ToMap] obtains from outside the package: path joining, the file
    system and the JSON decoder. *)
Record World : Type := mkWorld {
  filepath_Join : string -> string -> string;
  os_Open : string -> string + error;
  os_IsNotExist : error -> bool;
  json_Decode : string -> Manifest + error
}.

(** The loop over [configManifest.Configuration]. *)
Fixpoint forConfiguration (configPath : string)
    (options : list ConfigurationOption) (selections : gmap string string)
    (log : list LogLine) : gmap string string * option error * list LogLine :=
  match options with
  | [] => (selections, None, log)
  | configOption :: rest =>
      if String.eqb (Name configOption) "workspace"
         || String.eqb (Name configOption) "profile" then
        forConfiguration configPath rest selections log
      else
        match Default configOption with
        | None =>
            if Required configOption then
              (selections,
               Some (fmt_Errorf
                       "missing default value for required option %s in %s"
                       [arg_string (Name configOption); arg_string configPath]),
               log)
            else
              forConfiguration configPath rest
                (<[Name configOption := ""]> selections)
                (log ++ [(LevelWarn,
                          "Missing default value for " +:+ Name configOption
                          +:+ " in " +:+ configPath
                          +:+ ", it will be set to an empty string")])
        | Some default =>
            forConfiguration configPath rest
              (<[Name configOption := default]> selections) log
        end
  end.

(** [ToMap] transforms the [PluginOptions] struct into a map that can be
    consumed by the C2P Plugin Manager.  The third component is what was
    written to the logger. *)
Definition ToMap (w : World) (p : PluginOptions) (pluginId : string)
    : gmap string string * option error * list LogLine :=
  let selections : gmap string string := ∅ in
  let selections := <["workspace" := Workspace p]> selections in
  let selections := <["profile" := Profile p]> selections in
  if negb (String.eqb (UserConfigRoot p) "") then
    let configPath :=
      filepath_Join w (UserConfigRoot p)
                    ("c2p-" +:+ pluginId +:+ "-manifest.json") in
    match os_Open w configPath with
    | inr err =>
        if os_IsNotExist w err then
          (selections, None,
           [(LevelDebug,
             "Plugin manifest file does not exist: " +:+ configPath)])
        else
          (selections,
           Some (fmt_Errorf "failed to open plugin config file: %w"
                            [arg_error err]),
           [])
    | inl configFile =>
        match json_Decode w configFile with
        | inr err =>
            (selections,
             Some (fmt_Errorf "failed to parse plugin config file: %w"
                              [arg_error err]),
             [])
        | inl configManifest =>
            forConfiguration configPath (Configuration configManifest)
                             selections []
        end
    end
  else (selections, None, []).

(** [NewPluginOptions] created a new PluginOptions struct. *)
Definition NewPluginOptions : PluginOptions := mkPluginOptions "" "" "".

(** What [Validate] and [Plugins] obtain from outside besides the [World]
    of [ToMap]: [os.Stat] (its error, [None] for nil), the package
    constant [DefaultPluginConfigDir], whose declaration is in another
    file of the package, and the order in which a [range] visits the keys
    of a manifest map, which Go leaves open. *)
Record Host : Type := mkHost {
  files : World;
  os_Stat : string -> option error;
  DefaultPluginConfigDir : string;
  range_order : gmap string Manifest -> list string
}.

(** [Validate] ensure the required plugin options are set. *)
Definition Validate (h : Host) (p : PluginOptions) : option error :=
  if String.eqb (Workspace p) "" then
    Some (errors_New "workspace must be set")
  else if String.eqb (Profile p) "" then
    Some (errors_New "profile must be set")
  else if negb (String.eqb (UserConfigRoot p) "")
          && match os_Stat h (UserConfigRoot p) with
             | Some err => os_IsNotExist (files h) err
             | None => false
             end then
    Some (errors_New "user config root does not exist")
  else None.

(** The methods of [framework.PluginManager] that [Plugins] calls, for a
    type [Provider] of launched plugins.  Plugin identifiers
    ([plugin.ID]) are strings. *)
Record PluginManager (Provider : Type) : Type := mkPluginManager {
  FindRequestedPlugins : list string -> gmap string Manifest + error;
  LaunchPolicyPlugins :
    gmap string Manifest -> (string -> gmap string string)
    -> gmap string Provider + error
}.
Arguments FindRequestedPlugins {Provider}.
Arguments LaunchPolicyPlugins {Provider}.

(** [actions.InputContext], of which [Plugins] reads the requested
    providers. *)
Record InputContext : Type := mkInputContext {
  RequestedProviders : list string
}.

(** The cleanup function [Plugins] hands back: [manager.Clean] or nil. *)
Inductive cleanup : Type := manager_Clean.

(** The loop of [Plugins] over the keys of the manifests. *)
Fixpoint forManifests (w : World) (selections : PluginOptions)
    (pluginIds : list string)
    (pluginSelectionsMap : gmap string (gmap string string))
    (log : list LogLine)
    : gmap string (gmap string string) * option error * list LogLine :=
  match pluginIds with
  | [] => (pluginSelectionsMap, None, log)
  | pluginId :: rest =>
      match ToMap w selections pluginId with
      | (_, Some err, lines) =>
          (pluginSelectionsMap, Some err, (log ++ lines)%list)
      | (selectionsMap, None, lines) =>
          forManifests w selections rest
            (<[pluginId := selectionsMap]> pluginSelectionsMap)
            (log ++ lines)%list
      end
  end.

(** The closure [getSelections]: a plugin without an entry gets the nil
    map, which reads as the empty one. *)
Definition getSelections
    (pluginSelectionsMap : gmap string (gmap string string))
    (pluginId : string) : gmap string string :=
  default ∅ (pluginSelectionsMap !! pluginId).

(** [selections] as [Plugins] passes it on: with the default
    configuration directory when none is given and the default exists. *)
Definition withDefaultRoot (h : Host) (selections : PluginOptions)
    : PluginOptions :=
  if String.eqb (UserConfigRoot selections) "" then
    match os_Stat h (DefaultPluginConfigDir h) with
    | None =>
        mkPluginOptions (Workspace selections) (Profile selections)
                        (DefaultPluginConfigDir h)
    | Some _ => selections
    end
  else selections.

(** [Plugins] launches and configures plugins with the given complytime
    global options.  It returns the plugin map, a plugin cleanup function
    and an error; the fourth component is what was written to the
    logger. *)
Definition Plugins {Provider : Type} (h : Host)
    (manager : PluginManager Provider) (inputs : InputContext)
    (selections : PluginOptions)
    : option (gmap string Provider) * option cleanup * option error
      * list LogLine :=
  match FindRequestedPlugins manager (RequestedProviders inputs) with
  | inr err => (None, None, Some err, [])
  | inl manifests =>
      let selections := withDefaultRoot h selections in
      match Validate h selections with
      | Some err =>
          (None, None,
           Some (fmt_Errorf "failed plugin config validation: %w"
                            [arg_error err]),
           [])
      | None =>
          match forManifests (files h) selections (range_order h manifests)
                             ∅ [] with
          | (_, Some err, log) => (None, None, Some err, log)
          | (pluginSelectionsMap, None, log) =>
              match LaunchPolicyPlugins manager manifests
                      (getSelections pluginSelectionsMap) with
              | inr err => (None, Some manager_Clean, Some err, log)
              | inl plugins =>
                  (Some plugins, Some manager_Clean, None, log)
              end
          end
      end
  end.

End complytime.

(* ===================================================================== *)
(** ** Sample documents and surroundings                                  *)
(* ===================================================================== *)

Module sample.
Import Go xmlquery server.

Definition textNode (s : string) : Node := mkNode TextNode s "" [] [].

Definition element (prefix name : string) (attrs : list Attr)
    (children : list Node) : Node :=
  mkNode ElementNode name prefix attrs children.

Definition attr (name value : string) : Attr := mkAttr "" name value.

(** [<rule-result idref=...><result>token</result></rule-result>] *)
Definition ruleResult (idref token : string) : Node :=
  element "" "rule-result" [attr "idref" idref]
          [element "" "result" [] [textNode token]].

(** [<xccdf-1.2:check-content-ref name=... href=.../>] *)
Definition contentRef (name : string) : Node :=
  element "xccdf-1.2" "check-content-ref"
          [attr "name" name; attr "href" "ssg-oval.xml"] [].

(** A check of the given system that refers to the definition [name]. *)
Definition checkOf (system name : string) : Node :=
  element "xccdf-1.2" "check" [attr "system" system] [contentRef name].

Definition rule (id : string) (checkEls : list Node) : Node :=
  element "xccdf-1.2" "Rule" [attr "id" id] checkEls.

(** A results document: the benchmark with its rules, then the test
    result with the target (when given) and the rule-results. *)
Definition arf (target : option string) (rules results : list Node) : Node :=
  mkNode DocumentNode "" "" []
    [ element "arf" "asset-report-collection" []
        [ element "xccdf-1.2" "Benchmark" [] rules;
          element "" "TestResult" []
            (match target with
             | Some host => [element "" "target" [] [textNode host]]
             | None => []
             end ++ results) ] ].

(** Surroundings in which the scan succeeds and the ARF file parses to
    [doc]; the rule index is the one modelled from the spec. *)
Definition world (doc : Node) : World :=
  {| scan_ScanSystem := fun _ _ => None;
     filepath_Clean := fun path => path;
     os_Open := fun _ => inl "";
     utils_ParseContent := fun _ => inl doc;
     xccdf_NewRuleHashTable := NewRuleHashTable;
     time_Now := Z.of_nat |}.

Definition plugin : PluginServer :=
  mkPluginServer
    (config.mkConfig (config.mkFiles "/tmp/arf.xml")
                     (config.mkParameters "cis")).

(** A policy with one rule that declares the given checks. *)
Definition policyOf (ids : list string) : policy.Policy :=
  [policy.mkRuleSet "rule" (map (fun id => policy.mkCheck id "") ids)].

(** The end-to-end scenario: host1, rule1 checked by the OVAL definition
    [oval:ssg-sshd_enabled-1:def:1], and the outcome fail. *)
Definition sshdDocument : Node :=
  arf (Some "host1")
      [rule "rule1" [checkOf ovalCheckType "oval:ssg-sshd_enabled-1:def:1"]]
      [ruleResult "rule1" "fail"].

(** The skip scenario: the check of rule1 is [oval:ssg-X:def:1]. *)
Definition skipDocument : Node :=
  arf (Some "host1")
      [rule "rule1" [checkOf ovalCheckType "oval:ssg-X:def:1"]]
      [ruleResult "rule1" "pass"].

(** The same without the target element. *)
Definition noTargetDocument : Node :=
  arf None
      [rule "rule1" [checkOf ovalCheckType "oval:ssg-X:def:1"]]
      [ruleResult "rule1" "pass"].

(** A passing rule followed by a rule whose OVAL check has an identifier
    without any colon. *)
Definition malformedDocument : Node :=
  arf (Some "host1")
      [rule "rule1" [checkOf ovalCheckType "oval:ssg-X:def:1"];
       rule "rule2" [checkOf ovalCheckType "nocolon"]]
      [ruleResult "rule1" "pass"; ruleResult "rule2" "fail"].

(** A rule with a check of another system and two OVAL checks. *)
Definition scriptCheck : Node := checkOf "http://open-scap.org/page/SCE" "x.sh".
Definition firstOval : Node := checkOf ovalCheckType "oval:ssg-A:def:1".
Definition secondOval : Node := checkOf ovalCheckType "oval:ssg-B:def:1".
Definition threeChecksRule : Node :=
  rule "rule1" [scriptCheck; firstOval; secondOval].

(** Surroundings of [ToMap] in which the manifest file is there and
    decodes to the given options. *)
Definition manifestWorld (options : list complytime.ConfigurationOption)
    : complytime.World :=
  {| complytime.filepath_Join := fun dir file => dir +:+ "/" +:+ file;
     complytime.os_Open := fun _ => inl "";
     complytime.os_IsNotExist := fun _ => false;
     complytime.json_Decode := fun _ => inl (complytime.mkManifest options) |}.

(** A manifest that names both reserved options and one of its own. *)
Definition overridingOptions : list complytime.ConfigurationOption :=
  [ complytime.mkConfigurationOption "workspace" "" true (Some "/elsewhere");
    complytime.mkConfigurationOption "profile" "" true None;
    complytime.mkConfigurationOption "datastream" "" false (Some "ds.xml") ].

(** Four rule-results: rule1 and rule2 are in the policy of X and Y,
    rule9 is not in the benchmark and carries an unknown token, rule3 is
    checked by Z. *)
Definition mixedDocument : Node :=
  arf (Some "host1")
      [rule "rule1" [checkOf ovalCheckType "oval:ssg-X:def:1"];
       rule "rule2" [checkOf ovalCheckType "oval:ssg-Y:def:1"];
       rule "rule3" [checkOf ovalCheckType "oval:ssg-Z:def:1"]]
      [ruleResult "rule1" "pass"; ruleResult "rule9" "bogus";
       ruleResult "rule3" "bogus"; ruleResult "rule2" "fail"].

(** Two aborting rule-results: an unknown token for rule1, then a
    malformed identifier for rule2. *)
Definition twoAbortsDocument : Node :=
  arf (Some "host1")
      [rule "rule1" [checkOf ovalCheckType "oval:ssg-X:def:1"];
       rule "rule2" [checkOf ovalCheckType "nocolon"]]
      [ruleResult "rule1" "bogus"; ruleResult "rule2" "fail"].

Definition mixedPolicy : policy.Policy := policyOf ["X"; "Y"].

(** A host without configuration directory problems: every path exists,
    and the keys of a manifest map are visited in the order of the map's
    list of entries. *)
Definition host (options : list complytime.ConfigurationOption)
    : complytime.Host :=
  {| complytime.files := manifestWorld options;
     complytime.os_Stat := fun _ => None;
     complytime.DefaultPluginConfigDir := "/etc/complytime/config.d";
     complytime.range_order :=
       fun manifests => map fst (map_to_list manifests) |}.

(** A manager that finds the one plugin "openscap" and, as the launched
    plugin, keeps the selections it was handed for it. *)
Definition manager (options : list complytime.ConfigurationOption)
    : complytime.PluginManager (gmap string string) :=
  {| complytime.FindRequestedPlugins := fun _ =>
       inl {["openscap" := complytime.mkManifest options]};
     complytime.LaunchPolicyPlugins := fun _ getSelections =>
       inl {["openscap" := getSelections "openscap"]} |}.

Definition globalOptions : complytime.PluginOptions :=
  complytime.mkPluginOptions "/ws" "cis" "/etc/complytime".

(** Options of which the third blocks. *)
Definition blockedOptions : list complytime.ConfigurationOption :=
  [ complytime.mkConfigurationOption "datastream" "" false (Some "ds.xml");
    complytime.mkConfigurationOption "results" "" false None;
    complytime.mkConfigurationOption "policy" "" true None;
    complytime.mkConfigurationOption "arf" "" false (Some "arf.xml") ].

(** Options that name "datastream" twice. *)
Definition repeatedOptions : list complytime.ConfigurationOption :=
  [ complytime.mkConfigurationOption "datastream" "" false (Some "old.xml");
    complytime.mkConfigurationOption "profile" "" false (Some "other");
    complytime.mkConfigurationOption "datastream" "" true (Some "new.xml");
    complytime.mkConfigurationOption "results" "" false None ].

(** A host on which no path exists. *)
Definition bareHost : complytime.Host :=
  {| complytime.files :=
       {| complytime.filepath_Join := fun dir file => dir +:+ "/" +:+ file;
          complytime.os_Open := fun _ => inr (errors_New "no such file");
          complytime.os_IsNotExist := fun _ => true;
          complytime.json_Decode := fun _ => inr (errors_New "no content") |};
     complytime.os_Stat := fun _ => Some (errors_New "no such file");
     complytime.DefaultPluginConfigDir := "/etc/complytime/config.d";
     complytime.range_order :=
       fun manifests => map fst (map_to_list manifests) |}.

End sample.

(* ===================================================================== *)
(** ** The vocabulary of the statements                                   *)
(* ===================================================================== *)

Import Go xmlquery server.

(** The steps of [GetResults] before the loop, when none of them fails. *)
Definition opened (w : World) (s : PluginServer) (xmlnode : Node) : Prop :=
  scan_ScanSystem w (Config s) (config.Profile (config.Parameters (Config s)))
    = None
  /\ exists file,
       os_Open w (filepath_Clean w (config.ARF (config.Files (Config s))))
         = inl file
       /\ utils_ParseContent w file = inl xmlnode.

(** What one rule-result does to the loop. *)
Inductive outcome : Type :=
| Skipped
| Aborted (err : error)
| Observed (ovalCheck : string) (mappedResult : policy.Result).

Definition outcomeOf (policyChecks : checks) (ruleTable : gmap string Node)
    (result : Node) : outcome :=
  match ruleTable !! SelectAttr result "idref" with
  | None => Skipped
  | Some rule =>
      match firstOvalRef (SelectElements rule "//xccdf-1.2:check") with
      | None => Skipped
      | Some ovalRefEl =>
          match parseCheck ovalRefEl with
          | (_, Some err) => Aborted err
          | (ovalCheck, None) =>
              if Has policyChecks ovalCheck then
                match mapResultStatus result with
                | (_, Some err) => Aborted err
                | (mappedResult, None) => Observed ovalCheck mappedResult
                end
              else Skipped
          end
      end
  end.

Definition errMissingName : error :=
  errors_New "check-content-ref node has no 'name' attribute".

Definition errUnexpectedFormat (ovalCheckName : string) : error :=
  fmt_Errorf "check id %q is in unexpected format" [arg_string ovalCheckName].

(** [strings.Contains(s, substr)]. *)
Definition Contains (s substr : string) : Prop :=
  exists before after, s = before +:+ substr +:+ after.

(** A byte string made of tokens only. *)
Inductive Tokens (p1 : ascii -> bool) (p2 : ascii -> ascii -> bool)
    (p3 : ascii -> ascii -> ascii -> bool) : list ascii -> Prop :=
| Tokens_nil : Tokens p1 p2 p3 []
| Tokens_1 b0 l :
    p1 b0 = true -> Tokens p1 p2 p3 l -> Tokens p1 p2 p3 (b0 :: l)
| Tokens_2 b0 b1 l :
    p2 b0 b1 = true -> Tokens p1 p2 p3 l -> Tokens p1 p2 p3 (b0 :: b1 :: l)
| Tokens_3 b0 b1 b2 l :
    p3 b0 b1 b2 = true -> Tokens p1 p2 p3 l ->
    Tokens p1 p2 p3 (b0 :: b1 :: b2 :: l).

(** A string that is empty or made of Unicode white space only: a
    sequence of UTF-8 encodings of white-space code points. *)
Definition whiteSpaceOnly (s : string) : Prop :=
  Tokens space1 space2 space3 (list_ascii_of_string s).

(** [l] split at its first [c]: what stands before and what comes after. *)
Fixpoint cut (c : ascii) (l : list ascii) : option (list ascii * list ascii) :=
  match l with
  | [] => None
  | x :: l' =>
      if Ascii.eqb x c then Some ([], l')
      else match cut c l' with
           | Some (a, r) => Some (x :: a, r)
           | None => None
           end
  end.

Definition noLF (l : list ascii) : bool :=
  forallb (fun x => negb (Ascii.eqb x LF)) l.

(** The reading of an identifier that [ovalRegex] admits: prefix, colon,
    namespace, hyphen, short name, colon, suffix, with the short name and
    the suffix on one line. *)
Definition ovalSplit (l : list ascii)
    : option (list ascii * list ascii * list ascii * list ascii) :=
  match cut ":" l with
  | None => None
  | Some (a, r1) =>
      match cut "-" r1 with
      | None => None
      | Some (b, r2) =>
          match cut ":" r2 with
          | None => None
          | Some (c, d) => if noLF c && noLF d then Some (a, b, c, d) else None
          end
      end
  end.

(** The shape [parseCheck] expects of an identifier, with its short name:
    a prefix without colon, a colon, a namespace without hyphen, a hyphen,
    the short name without colon, a colon and a suffix, where the short
    name and the suffix hold no line feed.  So the first colon, the first
    hyphen after it and the first colon after that hyphen delimit the
    short name. *)
Definition ovalShape (identifier short : string) : Prop :=
  exists a b d : list ascii,
    list_ascii_of_string identifier
    = (a ++ ":"%char :: b ++ "-"%char
         :: list_ascii_of_string short ++ ":"%char :: d)%list
    /\ ~ In ":"%char a
    /\ ~ In "-"%char b
    /\ ~ In ":"%char (list_ascii_of_string short)
    /\ ~ In LF (list_ascii_of_string short)
    /\ ~ In LF d.

Abbreviation cont := (list ascii -> nat -> captures -> option captures).

(** The check identifiers a policy declares, rule by rule. *)
Definition checkIDs (oscalPolicy : policy.Policy) : list string :=
  flat_map (fun rule => map policy.ID (policy.Checks rule)) oscalPolicy.

(** The rule-results that give an observation. *)
Definition isObserved (o : outcome) : bool :=
  match o with
  | Observed _ _ => true
  | _ => false
  end.

Definition isSkipped (o : outcome) : bool :=
  match o with
  | Skipped => true
  | _ => false
  end.

(** The outcome tokens behind each result that [mapResultStatus] gives
    without an error. *)
Definition tokensOf (r : policy.Result) : list string :=
  match r with
  | policy.ResultPass => ["pass"; "fixed"]
  | policy.ResultFail => ["fail"]
  | policy.ResultError => ["notselected"; "notapplicable"; "error"; "unknown"]
  | policy.ResultInvalid => []
  end.

Definition isAborted (o : outcome) : bool :=
  match o with
  | Aborted _ => true
  | _ => false
  end.

(** The observations of the rule-results that give one, in their order,
    when the first of them is built after [tick] calls of [time.Now]. *)
Fixpoint observe (w : World) (s : PluginServer) (policyChecks : checks)
    (target : string) (ruleTable : gmap string Node) (results : list Node)
    (tick : nat) : list policy.ObservationByCheck :=
  match results with
  | [] => []
  | result :: rest =>
      match outcomeOf policyChecks ruleTable result with
      | Observed ovalCheck mappedResult =>
          newObservation w s tick (SelectAttr result "idref") ovalCheck
                         target mappedResult result
          :: observe w s policyChecks target ruleTable rest (S (S tick))
      | _ => observe w s policyChecks target ruleTable rest tick
      end
  end.

(** What every observation of [GetResults] looks like, for the host
    [target] and the results file [arf]: the fixed method and evidence
    link, and one subject for the host whose result comes from the
    outcome token that its reason quotes. *)
Definition observationFor (target arf : string)
    (o : policy.ObservationByCheck) : Prop :=
  policy.Methods o = ["AUTOMATED"]
  /\ policy.RelevantEvidences o
     = [policy.mkLink ("file://" +:+ arf) "ARF_FILE"]
  /\ exists subject token,
       policy.Subjects o = [subject]
       /\ policy.Subject_Title subject = "Host " +:+ target
       /\ policy.Type_ subject = "inventory-item"
       /\ policy.ResourceID subject = target
       /\ policy.Props subject = [policy.mkProperty "hostname" target]
       /\ In token (tokensOf (policy.Result_ subject))
       /\ policy.Reason subject = "openscap rule-result is " +:+ token.

(** The rule-result [r] makes the loop return [err]: its rule is in the
    index and has a relevant check, and either the identifier of that
    check does not normalize, or it does, the policy holds it, and the
    outcome of [r] does not map. *)
Definition aborts (policyChecks : checks) (ruleTable : gmap string Node)
    (r : Node) (err : error) : Prop :=
  exists rule ovalRefEl,
    ruleTable !! SelectAttr r "idref" = Some rule
    /\ firstOvalRef (SelectElements rule "//xccdf-1.2:check") = Some ovalRefEl
    /\ ((parseCheck ovalRefEl).2 = Some err
        \/ ((parseCheck ovalRefEl).2 = None
            /\ Has policyChecks (parseCheck ovalRefEl).1 = true
            /\ (mapResultStatus r).2 = Some err)).

(** The option names [ToMap] keeps for the global options. *)
Definition reserved (name : string) : bool :=
  String.eqb name "workspace" || String.eqb name "profile".

(** A manifest option at which [ToMap] gives up: not reserved, required
    and without a default. *)
Definition blocking (o : complytime.ConfigurationOption) : bool :=
  negb (reserved (complytime.Name o))
  && match complytime.Default o with
     | None => complytime.Required o
     | Some _ => false
     end.

(** The value [ToMap] enters for an option that does not block. *)
Definition entered (o : complytime.ConfigurationOption) : string :=
  default "" (complytime.Default o).

(** What an option that does not block does to the selections. *)
Definition enter (selections : gmap string string)
    (o : complytime.ConfigurationOption) : gmap string string :=
  if reserved (complytime.Name o) then selections
  else <[complytime.Name o := entered o]> selections.

(** The selections [ToMap] starts from. *)
Definition globalSelections (p : complytime.PluginOptions)
    : gmap string string :=
  <["profile" := complytime.Profile p]>
    (<["workspace" := complytime.Workspace p]> ∅).

(** The path of the manifest that [ToMap] reads for a plugin. *)
Definition manifestPath (w : complytime.World) (p : complytime.PluginOptions)
    (pluginId : string) : string :=
  complytime.filepath_Join w (complytime.UserConfigRoot p)
                           ("c2p-" +:+ pluginId +:+ "-manifest.json").

(** [ToMap] finds the manifest of the plugin and decodes it to the given
    options. *)
Definition manifestRead (w : complytime.World) (p : complytime.PluginOptions)
    (pluginId : string) (options : list complytime.ConfigurationOption)
    : Prop :=
  complytime.UserConfigRoot p <> ""
  /\ exists configFile,
       complytime.os_Open w (manifestPath w p pluginId) = inl configFile
       /\ complytime.json_Decode w configFile
          = inl (complytime.mkManifest options).

(** The error [ToMap] returns at a blocking option. *)
Definition errMissingDefault (o : complytime.ConfigurationOption)
    (configPath : string) : error :=
  fmt_Errorf "missing default value for required option %s in %s"
             [arg_string (complytime.Name o); arg_string configPath].

(** What [Plugins] returns from the call of [LaunchPolicyPlugins]. *)
Definition launchResult {Provider : Type}
    (launched : gmap string Provider + error)
    : option (gmap string Provider) * option complytime.cleanup
      * option error :=
  match launched with
  | inr err => (None, Some complytime.manager_Clean, Some err)
  | inl plugins => (Some plugins, Some complytime.manager_Clean, None)
  end.


(* ===================================================================== *)
(** * Properties                                                          *)
(* ===================================================================== *)

(** ** The status mapper *)

Section StatusMapper.
Variables (result resultEl : Node).
Hypothesis Hel : SelectElement result "result" = Some resultEl.

Lemma mapResultStatus_token :
  mapResultStatus result =
  let token := InnerText resultEl in
  if String.eqb token "pass" || String.eqb token "fixed" then
    (policy.ResultPass, None)
  else if String.eqb token "fail" then (policy.ResultFail, None)
  else if String.eqb token "notselected"
          || String.eqb token "notapplicable"
          || String.eqb token "error" || String.eqb token "unknown" then
    (policy.ResultError, None)
  else (policy.ResultInvalid,
        Some (fmt_Errorf "couldn't match %s" [arg_string token])).
Proof.
  unfold mapResultStatus. rewrite Hel. cbv zeta.
  repeat (destruct (String.eqb _ _); try reflexivity).
Qed.
End StatusMapper.

(** C2. For every raw outcome token -- the text of the [result] child of a
    rule-result node -- [mapResultStatus] returns Pass for "pass" and
    "fixed", Fail for "fail", Error for "notselected", "notapplicable",
    "error" and "unknown", each with the nil error; for any other token it
    returns Invalid with the error formatted from "couldn't match %s" and
    that token. *)
Theorem mapResultStatus_total (result resultEl : Node) :
  SelectElement result "result" = Some resultEl ->
  let token := InnerText resultEl in
  (token = "pass" \/ token = "fixed" ->
     mapResultStatus result = (policy.ResultPass, None))
  /\ (token = "fail" -> mapResultStatus result = (policy.ResultFail, None))
  /\ (token = "notselected" \/ token = "notapplicable"
      \/ token = "error" \/ token = "unknown" ->
     mapResultStatus result = (policy.ResultError, None))
  /\ (token <> "pass" -> token <> "fixed" -> token <> "fail" ->
      token <> "notselected" -> token <> "notapplicable" ->
      token <> "error" -> token <> "unknown" ->
     mapResultStatus result =
       (policy.ResultInvalid,
        Some (fmt_Errorf "couldn't match %s" [arg_string token]))).
Proof.
  intros Hel token. rewrite (mapResultStatus_token _ _ Hel).
  fold token. cbv zeta.
  repeat split.
  - intros [-> | ->]; reflexivity.
  - intros ->; reflexivity.
  - intros [-> | [-> | [-> | ->]]]; reflexivity.
  - intros H1 H2 H3 H4 H5 H6 H7.
    apply String.eqb_neq in H1, H2, H3, H4, H5, H6, H7.
    rewrite H1, H2, H3, H4, H5, H6, H7. reflexivity.
Qed.


(** ** The policy check set *)

Lemma Has_true (c : checks) (check : string) :
  Has c check = true <-> is_Some (c !! check).
Proof.
  unfold Has. destruct (c !! check) as [[]|].
  - split; [eauto | reflexivity].
  - split; [discriminate | intros [? ?]; discriminate].
Qed.

Lemma Has_insert (c : checks) (id check : string) :
  Has (<[id := tt]> c) check = true <-> id = check \/ Has c check = true.
Proof.
  rewrite !Has_true. rewrite lookup_insert_is_Some.
  split; [intros [? | [_ ?]]; auto | ].
  intros [? | ?]; [auto | ].
  destruct (decide (id = check)); auto.
Qed.

Lemma Has_loadChecks (cs : list policy.Check) (c : checks) (check : string) :
  Has (foldl (fun c x => <[policy.ID x := tt]> c) c cs) check = true
  <-> Has c check = true \/ Exists (fun x => policy.ID x = check) cs.
Proof.
  revert c. induction cs as [|x cs IH]; intros c; simpl.
  - rewrite Exists_nil. tauto.
  - rewrite IH, Has_insert, Exists_cons. tauto.
Qed.

(** Membership after [LoadPolicy]: what was there before, and the
    identifier of every check of every rule of the policy. *)
Lemma Has_LoadPolicy (oscalPolicy : policy.Policy) (c : checks)
    (check : string) :
  Has (LoadPolicy c oscalPolicy) check = true
  <-> Has c check = true
      \/ Exists (fun rule => Exists (fun x => policy.ID x = check)
                                    (policy.Checks rule)) oscalPolicy.
Proof.
  unfold LoadPolicy. revert c.
  induction oscalPolicy as [|rule rules IH]; intros c; simpl.
  - rewrite Exists_nil. tauto.
  - rewrite IH, Has_loadChecks, Exists_cons. tauto.
Qed.

Lemma Has_newChecks (check : string) : Has newChecks check = false.
Proof. reflexivity. Qed.

(** C9. The check set loaded from a policy whose two rules declare the
    checks A, B and B, C (whatever the rules and the descriptions are) is
    the three-element set of A, B and C: [Has] answers true for exactly those
    three strings, and the check B declared twice is held once. *)
Theorem LoadPolicy_ABC (r1 r2 dA dB dB' dC : string) (check : string) :
  let oscalPolicy :=
    [ policy.mkRuleSet r1 [policy.mkCheck "A" dA; policy.mkCheck "B" dB];
      policy.mkRuleSet r2 [policy.mkCheck "B" dB'; policy.mkCheck "C" dC] ] in
  (Has (LoadPolicy newChecks oscalPolicy) check = true
   <-> check = "A" \/ check = "B" \/ check = "C")
  /\ size (LoadPolicy newChecks oscalPolicy) = 3.
Proof.
  intros oscalPolicy. split.
  - rewrite Has_LoadPolicy, Has_newChecks. subst oscalPolicy.
    rewrite Exists_cons, Exists_cons, Exists_nil. simpl.
    rewrite !Exists_cons, !Exists_nil. simpl. intuition congruence.
  - reflexivity.
Qed.

(** ** The plugin option map *)

(** The loop over the manifest options never writes the two reserved
    keys, whichever way it ends. *)
Lemma forConfiguration_reserved (configPath : string)
    (options : list complytime.ConfigurationOption)
    (selections : gmap string string) (log : list complytime.LogLine)
    (key : string) :
  key = "workspace" \/ key = "profile" ->
  (complytime.forConfiguration configPath options selections log).1.1 !! key
  = selections !! key.
Proof.
  intros Hkey. revert selections log.
  induction options as [|o options IH]; intros selections log; simpl.
  - reflexivity.
  - destruct (String.eqb (complytime.Name o) "workspace") eqn:Hw; simpl.
    { apply IH. }
    destruct (String.eqb (complytime.Name o) "profile") eqn:Hp; simpl.
    { apply IH. }
    apply String.eqb_neq in Hw, Hp.
    assert (complytime.Name o <> key) by (destruct Hkey; congruence).
    destruct (complytime.Default o) as [d|].
    + rewrite IH. by apply lookup_insert_ne.
    + destruct (complytime.Required o); simpl.
      * reflexivity.
      * rewrite IH. by apply lookup_insert_ne.
Qed.

(** C10. For every plugin id and whatever the surroundings give for the
    manifest (no file, an unreadable file, content that does not parse,
    or any list of configuration options), the map returned by [ToMap]
    sends "workspace" to the receiver's Workspace and "profile" to the
    receiver's Profile, also when an error is returned with it; and the
    loop passes over an option named "workspace" or "profile" without any
    effect, so the manifest cannot override the two entries. *)
Theorem ToMap_reserved_keys (w : complytime.World)
    (p : complytime.PluginOptions) (pluginId : string) :
  ((complytime.ToMap w p pluginId).1.1 !! "workspace"
     = Some (complytime.Workspace p)
   /\ (complytime.ToMap w p pluginId).1.1 !! "profile"
     = Some (complytime.Profile p))
  /\ (forall configPath o options selections log,
        complytime.Name o = "workspace" \/ complytime.Name o = "profile" ->
        complytime.forConfiguration configPath (o :: options) selections log
        = complytime.forConfiguration configPath options selections log).
Proof.
  split.
  - assert (Hsel : forall r : gmap string string * option error
                               * list complytime.LogLine,
               r.1.1 = <["profile" := complytime.Profile p]>
                         (<["workspace" := complytime.Workspace p]> ∅) ->
               r.1.1 !! "workspace" = Some (complytime.Workspace p)
               /\ r.1.1 !! "profile" = Some (complytime.Profile p)).
    { intros r ->. split.
      - rewrite lookup_insert_ne by discriminate. apply lookup_insert_eq.
      - apply lookup_insert_eq. }
    unfold complytime.ToMap. cbv zeta.
    destruct (negb _); [ | by apply Hsel].
    destruct (complytime.os_Open w _) as [configFile | err].
    + destruct (complytime.json_Decode w configFile) as [m | err];
        [ | by apply Hsel].
      rewrite !forConfiguration_reserved by auto.
      split.
      * rewrite lookup_insert_ne by discriminate. apply lookup_insert_eq.
      * apply lookup_insert_eq.
    + destruct (complytime.os_IsNotExist w err); by apply Hsel.
  - intros configPath o options selections log Hname. simpl.
    destruct Hname as [-> | ->]; reflexivity.
Qed.

(** ** The correlation loop *)

Section Correlation.
Variables (w : World) (s : PluginServer) (policyChecks : checks).
Variables (target : string) (ruleTable : gmap string Node).

Lemma forResults_cons (result : Node) (rest : list Node)
    (pvpResults : policy.PVPResult) (tick : nat) :
  forResults w s policyChecks target ruleTable (result :: rest)
             pvpResults tick
  = match outcomeOf policyChecks ruleTable result with
    | Skipped =>
        forResults w s policyChecks target ruleTable rest pvpResults tick
    | Aborted err => (policy.mkPVPResult [], Some err)
    | Observed ovalCheck mappedResult =>
        forResults w s policyChecks target ruleTable rest
          (policy.mkPVPResult
             (policy.ObservationsByCheck pvpResults
              ++ [newObservation w s tick (SelectAttr result "idref")
                                 ovalCheck target mappedResult result]))
          (S (S tick))
    end.
Proof.
  unfold outcomeOf. simpl.
  destruct (ruleTable !! _) as [rule|]; [ | reflexivity].
  destruct (firstOvalRef _) as [ovalRefEl|]; [ | reflexivity].
  destruct (parseCheck ovalRefEl) as [ovalCheck [err|]]; [reflexivity | ].
  destruct (Has policyChecks ovalCheck); [ | reflexivity].
  destruct (mapResultStatus result) as [mappedResult [err|]]; reflexivity.
Qed.

(** An error leaves the loop with the empty result. *)
Lemma forResults_error (results : list Node) (pvpResults : policy.PVPResult)
    (tick : nat) (err : error) :
  (forResults w s policyChecks target ruleTable results pvpResults tick).2
    = Some err ->
  (forResults w s policyChecks target ruleTable results pvpResults tick).1
    = policy.mkPVPResult [].
Proof.
  revert pvpResults tick.
  induction results as [|result rest IH]; intros pvpResults tick.
  - discriminate.
  - rewrite forResults_cons.
    destruct (outcomeOf policyChecks ruleTable result); auto.
Qed.

(** Rule-results that are all skipped leave the loop where it was. *)
Lemma forResults_skipped (results : list Node)
    (pvpResults : policy.PVPResult) (tick : nat) :
  Forall (fun result => outcomeOf policyChecks ruleTable result = Skipped)
         results ->
  forResults w s policyChecks target ruleTable results pvpResults tick
  = (pvpResults, None).
Proof.
  induction 1 as [|result rest Hskip _ IH]; [reflexivity | ].
  by rewrite forResults_cons, Hskip.
Qed.

(** A prefix of the rule-results that is passed without an error hands
    its observations and its clock to the rest. *)
Lemma forResults_app (pre rest : list Node) (pvpResults acc : policy.PVPResult)
    (tick : nat) :
  forResults w s policyChecks target ruleTable pre pvpResults tick
    = (acc, None) ->
  exists tick',
    forResults w s policyChecks target ruleTable (pre ++ rest) pvpResults tick
    = forResults w s policyChecks target ruleTable rest acc tick'.
Proof.
  revert pvpResults tick.
  induction pre as [|result pre IH]; intros pvpResults tick Hpre.
  - injection Hpre as ->. by exists tick.
  - rewrite <- app_comm_cons, forResults_cons.
    rewrite forResults_cons in Hpre.
    destruct (outcomeOf policyChecks ruleTable result);
      [by apply IH | discriminate | by apply IH].
Qed.
End Correlation.

Lemma GetResults_opened (w : World) (s : PluginServer)
    (oscalPolicy : policy.Policy) (xmlnode : Node) :
  opened w s xmlnode ->
  GetResults w s oscalPolicy
  = match SelectElement xmlnode "//target" with
    | None =>
        (policy.mkPVPResult [],
         Some (errors_New "result has no 'target' attribute"))
    | Some targetEl =>
        forResults w s (LoadPolicy newChecks oscalPolicy)
                   (InnerText targetEl) (xccdf_NewRuleHashTable w xmlnode)
                   (SelectElements xmlnode "//rule-result")
                   (policy.mkPVPResult []) 0
    end.
Proof.
  intros [Hscan (file & Hopen & Hparse)].
  unfold GetResults. by rewrite Hscan, Hopen, Hparse.
Qed.

(** C5. Whenever [GetResults] returns an error -- from the scan, from
    opening or parsing the results file, for the missing target, for a
    malformed check identifier or for an unrecognized outcome token -- the
    result returned with it is the empty one: no observation gathered
    before the error comes back with it. *)
Theorem GetResults_error_no_partial (w : World) (s : PluginServer)
    (oscalPolicy : policy.Policy) (err : error) :
  (GetResults w s oscalPolicy).2 = Some err ->
  (GetResults w s oscalPolicy).1 = policy.mkPVPResult [].
Proof.
  unfold GetResults.
  destruct (scan_ScanSystem w _ _); [reflexivity | ].
  destruct (os_Open w _) as [file|]; [ | reflexivity].
  destruct (utils_ParseContent w file) as [xmlnode|]; [ | reflexivity].
  destruct (SelectElement xmlnode "//target"); [ | reflexivity].
  apply forResults_error.
Qed.

(** ** Queries on the document *)

Lemma SelectElement_target (xmlnode : Node) :
  SelectElement xmlnode "//target"
  = head (List.filter (nameTest "" "target") (descendants xmlnode)).
Proof. reflexivity. Qed.

Lemma nameTest_true (prefix local : string) (n : Node) :
  nameTest prefix local n = true
  <-> xmlquery.Type_ n = ElementNode /\ Data n = local /\ Prefix n = prefix.
Proof.
  unfold nameTest. rewrite !andb_true_iff, !bool_decide_eq_true. tauto.
Qed.

Lemma head_filter_None {A} (f : A -> bool) (l : list A) :
  head (List.filter f l) = None <-> forall x, In x l -> f x = false.
Proof.
  induction l as [|a l IH]; simpl.
  - split; [intros _ x [] | reflexivity].
  - destruct (f a) eqn:Ha; simpl.
    + split; [discriminate | ]. intros H. specialize (H a (or_introl eq_refl)).
      congruence.
    + rewrite IH. split.
      * intros H x [<- | Hx]; auto.
      * intros H x Hx. apply H. by right.
Qed.

(** C3. For every results document that parses and holds no [target]
    element anywhere below its root -- whatever rules and rule-results it
    holds -- [GetResults] returns the error "result has no 'target'
    attribute" and the empty result. *)
Theorem GetResults_missing_target (w : World) (s : PluginServer)
    (oscalPolicy : policy.Policy) (xmlnode : Node) :
  opened w s xmlnode ->
  (forall n, In n (descendants xmlnode) ->
     ~ (xmlquery.Type_ n = ElementNode
        /\ Data n = "target" /\ Prefix n = "")) ->
  GetResults w s oscalPolicy
  = (policy.mkPVPResult [],
     Some (errors_New "result has no 'target' attribute")).
Proof.
  intros Hopen Hnone. rewrite (GetResults_opened _ _ _ _ Hopen).
  assert (SelectElement xmlnode "//target" = None) as ->; [ | reflexivity].
  rewrite SelectElement_target. apply head_filter_None.
  intros n Hn. specialize (Hnone n Hn).
  rewrite <- nameTest_true in Hnone. by destruct (nameTest _ _ n).
Qed.

(** ** The relevant check of a rule *)

Lemma firstOvalRef_app (pre rest : list Node) :
  Forall (fun c => SelectAttr c "system" <> ovalCheckType) pre ->
  firstOvalRef (pre ++ rest) = firstOvalRef rest.
Proof.
  induction 1 as [|c pre Hc _ IH]; [reflexivity | ].
  simpl. apply String.eqb_neq in Hc. by rewrite Hc.
Qed.

Lemma firstOvalRef_Some (checkEls : list Node) (ref : Node) :
  firstOvalRef checkEls = Some ref ->
  exists check,
    In check checkEls
    /\ SelectAttr check "system" = ovalCheckType
    /\ SelectElement check "xccdf-1.2:check-content-ref" = Some ref.
Proof.
  induction checkEls as [|c checkEls IH]; simpl; [discriminate | ].
  destruct (String.eqb _ _) eqn:Hsys.
  - apply String.eqb_eq in Hsys. intros Href. exists c. auto.
  - intros Href. destruct (IH Href) as (check & ? & ? & ?).
    exists check. auto.
Qed.

(** C7. Let the checks declared below a rule be, in document order, some
    checks of other systems, then a check of the OVAL system, then any
    further checks (of the OVAL system or not).  The check reference used
    for the rule is the [check-content-ref] of that first OVAL check: the
    checks after it are not looked at, and whenever a reference is used
    it belongs to a check of the OVAL system. *)
Theorem firstOvalRef_first_in_document_order (rule : Node)
    (pre post : list Node) (check : Node) :
  SelectElements rule "//xccdf-1.2:check" = (pre ++ check :: post)%list ->
  Forall (fun c => SelectAttr c "system" <> ovalCheckType) pre ->
  SelectAttr check "system" = ovalCheckType ->
  firstOvalRef (SelectElements rule "//xccdf-1.2:check")
    = SelectElement check "xccdf-1.2:check-content-ref"
  /\ (forall ref,
        firstOvalRef (SelectElements rule "//xccdf-1.2:check") = Some ref ->
        exists c,
          In c (SelectElements rule "//xccdf-1.2:check")
          /\ SelectAttr c "system" = ovalCheckType
          /\ SelectElement c "xccdf-1.2:check-content-ref" = Some ref).
Proof.
  intros Hchecks Hpre Hsys. split.
  - rewrite Hchecks, firstOvalRef_app by done.
    simpl. apply String.eqb_eq in Hsys. by rewrite Hsys.
  - intros ref. apply firstOvalRef_Some.
Qed.

(** ** Abort and skip *)

(** C4. Take a document that parses and has a target, and a rule-result
    that the loop reaches (the rule-results before it bring no error).  If
    its rule is in the index and the identifier of the rule's relevant
    check does not normalize, [GetResults] returns that error with the
    empty result -- for every policy, so whether or not the policy holds
    the check: the loop step is an abort for every check set. *)
Theorem GetResults_malformed_identifier_aborts (w : World) (s : PluginServer)
    (oscalPolicy : policy.Policy) (xmlnode targetEl : Node)
    (pre post : list Node) (result rule ovalRefEl : Node)
    (acc : policy.PVPResult) (err : error) :
  opened w s xmlnode ->
  SelectElement xmlnode "//target" = Some targetEl ->
  SelectElements xmlnode "//rule-result" = (pre ++ result :: post)%list ->
  forResults w s (LoadPolicy newChecks oscalPolicy) (InnerText targetEl)
             (xccdf_NewRuleHashTable w xmlnode) pre (policy.mkPVPResult []) 0
    = (acc, None) ->
  xccdf_NewRuleHashTable w xmlnode !! SelectAttr result "idref" = Some rule ->
  firstOvalRef (SelectElements rule "//xccdf-1.2:check") = Some ovalRefEl ->
  (parseCheck ovalRefEl).2 = Some err ->
  GetResults w s oscalPolicy = (policy.mkPVPResult [], Some err)
  /\ (forall policyChecks,
        outcomeOf policyChecks (xccdf_NewRuleHashTable w xmlnode) result
        = Aborted err).
Proof.
  intros Hopen Htarget Hresults Hpre Hrule Href Hparse.
  assert (Hstep : forall policyChecks,
             outcomeOf policyChecks (xccdf_NewRuleHashTable w xmlnode) result
             = Aborted err).
  { intros policyChecks. unfold outcomeOf. rewrite Hrule, Href.
    destruct (parseCheck ovalRefEl) as [ovalCheck [e|]]; simpl in Hparse;
      congruence. }
  split; [ | exact Hstep].
  rewrite (GetResults_opened _ _ _ _ Hopen), Htarget, Hresults.
  destruct (forResults_app w s _ _ _ pre (result :: post) _ _ _ Hpre)
    as [tick' ->].
  by rewrite forResults_cons, Hstep.
Qed.

(** C6. A rule-result whose rule is in the index and whose relevant check
    normalizes to an identifier that the policy check set does not hold
    is passed over: the loop goes on with the observations and the clock
    it had.  A document that parses, has a target and holds that one
    rule-result therefore gives the empty result and the nil error. *)
Theorem GetResults_check_outside_policy (w : World) (s : PluginServer)
    (oscalPolicy : policy.Policy) (xmlnode targetEl : Node)
    (result rule ovalRefEl : Node) (ovalCheck : string) :
  xccdf_NewRuleHashTable w xmlnode !! SelectAttr result "idref" = Some rule ->
  firstOvalRef (SelectElements rule "//xccdf-1.2:check") = Some ovalRefEl ->
  parseCheck ovalRefEl = (ovalCheck, None) ->
  Has (LoadPolicy newChecks oscalPolicy) ovalCheck = false ->
  (forall target rest pvpResults tick,
     forResults w s (LoadPolicy newChecks oscalPolicy) target
                (xccdf_NewRuleHashTable w xmlnode) (result :: rest)
                pvpResults tick
     = forResults w s (LoadPolicy newChecks oscalPolicy) target
                  (xccdf_NewRuleHashTable w xmlnode) rest pvpResults tick)
  /\ (opened w s xmlnode ->
      SelectElement xmlnode "//target" = Some targetEl ->
      SelectElements xmlnode "//rule-result" = [result] ->
      GetResults w s oscalPolicy = (policy.mkPVPResult [], None)).
Proof.
  intros Hrule Href Hparse Hhas.
  assert (Hstep : outcomeOf (LoadPolicy newChecks oscalPolicy)
                            (xccdf_NewRuleHashTable w xmlnode) result
                  = Skipped).
  { unfold outcomeOf. by rewrite Hrule, Href, Hparse, Hhas. }
  split.
  - intros target rest pvpResults tick. by rewrite forResults_cons, Hstep.
  - intros Hopen Htarget Hresults.
    rewrite (GetResults_opened _ _ _ _ Hopen), Htarget, Hresults.
    by rewrite forResults_cons, Hstep.
Qed.

(** ** White space *)

Section TokenFacts.
Variable p1 : ascii -> bool.
Variable p2 : ascii -> ascii -> bool.
Variable p3 : ascii -> ascii -> ascii -> bool.

Lemma Tokens_app (a b : list ascii) :
  Tokens p1 p2 p3 a -> Tokens p1 p2 p3 b -> Tokens p1 p2 p3 (a ++ b).
Proof.
  induction 1; intros Hb; simpl;
    [exact Hb | apply Tokens_1 | apply Tokens_2 | apply Tokens_3]; auto.
Qed.

(** [trimFront] takes a run of tokens off the front. *)
Lemma trimFront_split (s : list ascii) :
  exists pre, s = (pre ++ trimFront p1 p2 p3 s)%list /\ Tokens p1 p2 p3 pre.
Proof.
  remember (length s) as n eqn:Hn. revert s Hn.
  induction n as [n IH] using lt_wf_ind. intros s Hn.
  assert (Hrec : forall t, length t < n ->
            exists pre,
              t = (pre ++ trimFront p1 p2 p3 t)%list /\ Tokens p1 p2 p3 pre).
  { intros t Ht. by apply (IH (length t)). }
  assert (Hkeep : exists pre, s = (pre ++ s)%list /\ Tokens p1 p2 p3 pre).
  { exists []. split; [reflexivity | constructor]. }
  destruct s as [|b0 [|b1 [|b2 t2]]]; simpl in Hn; subst n.
  - exact Hkeep.
  - simpl. destruct (p1 b0) eqn:H1; [ | exact Hkeep].
    exists [b0]. split; [reflexivity | by repeat constructor].
  - destruct (Hrec [b1]) as (pre1 & Heq1 & Hpre1); [simpl; lia | ].
    simpl. destruct (p1 b0) eqn:H1.
    { exists (b0 :: pre1).
      split; [exact (f_equal (cons b0) Heq1) | by constructor]. }
    destruct (p2 b0 b1) eqn:H2; [ | exact Hkeep].
    exists [b0; b1]. split; [reflexivity | by repeat constructor].
  - destruct (Hrec (b1 :: b2 :: t2)) as (pre1 & Heq1 & Hpre1);
      [simpl; lia | ].
    destruct (Hrec (b2 :: t2)) as (pre2 & Heq2 & Hpre2); [simpl; lia | ].
    destruct (Hrec t2) as (pre3 & Heq3 & Hpre3); [simpl; lia | ].
    simpl. destruct (p1 b0) eqn:H1.
    { exists (b0 :: pre1).
      split; [exact (f_equal (cons b0) Heq1) | by constructor]. }
    destruct (p2 b0 b1) eqn:H2.
    { exists (b0 :: b1 :: pre2).
      split; [exact (f_equal (fun l => b0 :: b1 :: l) Heq2)
             | by constructor]. }
    destruct (p3 b0 b1 b2) eqn:H3; [ | exact Hkeep].
    exists (b0 :: b1 :: b2 :: pre3).
    split; [exact (f_equal (fun l => b0 :: b1 :: b2 :: l) Heq3)
           | by constructor].
Qed.

(** No token starts another one. *)
Hypothesis prefix_free_2 : forall b0 b1, p2 b0 b1 = true -> p1 b0 = false.
Hypothesis prefix_free_3 :
  forall b0 b1 b2, p3 b0 b1 b2 = true -> p1 b0 = false /\ p2 b0 b1 = false.

Lemma trimFront_Tokens (s : list ascii) :
  Tokens p1 p2 p3 s -> trimFront p1 p2 p3 s = [].
Proof.
  induction 1 as [|b0 l H1 _ IH|b0 b1 l H2 _ IH|b0 b1 b2 l H3 _ IH]; simpl.
  - reflexivity.
  - by rewrite H1.
  - by rewrite (prefix_free_2 _ _ H2), H2.
  - destruct (prefix_free_3 _ _ _ H3) as [-> ->]. by rewrite H3.
Qed.

Lemma trimFront_nil_iff (s : list ascii) :
  trimFront p1 p2 p3 s = [] <-> Tokens p1 p2 p3 s.
Proof.
  split; [ | apply trimFront_Tokens].
  intros Hnil. destruct (trimFront_split s) as (pre & Heq & Hpre).
  rewrite Hnil, app_nil_r in Heq. by subst.
Qed.

Lemma Tokens_trimFront (s : list ascii) :
  Tokens p1 p2 p3 (trimFront p1 p2 p3 s) <-> Tokens p1 p2 p3 s.
Proof.
  split.
  - intros Htrim. destruct (trimFront_split s) as (pre & Heq & Hpre).
    rewrite Heq. by apply Tokens_app.
  - intros Hs. rewrite (trimFront_Tokens _ Hs). constructor.
Qed.
End TokenFacts.

(** Tokens read backwards are the tokens of the reversed string. *)
Lemma Tokens_rev p1 p2 p3 (l : list ascii) :
  Tokens p1 p2 p3 l ->
  Tokens p1 (fun b1 b0 => p2 b0 b1) (fun b2 b1 b0 => p3 b0 b1 b2) (rev l).
Proof.
  induction 1 as [|b0 l H1 _ IH|b0 b1 l H2 _ IH|b0 b1 b2 l H3 _ IH]; simpl.
  - constructor.
  - apply Tokens_app; [exact IH | by repeat constructor].
  - rewrite <- app_assoc. apply Tokens_app; [exact IH | ].
    apply Tokens_2; [exact H2 | constructor].
  - rewrite <- !app_assoc. apply Tokens_app; [exact IH | ].
    apply Tokens_3; [exact H3 | constructor].
Qed.

Ltac byte_facts :=
  unfold space1, space2, space3, byte_is, byte_in;
  let H := fresh in
  intros H;
  repeat (progress
            rewrite ?orb_true_iff, ?andb_true_iff, ?N.eqb_eq, ?N.leb_le in H);
  rewrite ?orb_false_iff, ?andb_false_iff, ?N.eqb_neq, ?N.leb_gt;
  lia.

Lemma space2_not_space1 b0 b1 : space2 b0 b1 = true -> space1 b0 = false.
Proof. byte_facts. Qed.

Lemma space3_not_space b0 b1 b2 :
  space3 b0 b1 b2 = true -> space1 b0 = false /\ space2 b0 b1 = false.
Proof. byte_facts. Qed.

Lemma space2_rev_not_space1 b1 b0 : space2 b0 b1 = true -> space1 b1 = false.
Proof. byte_facts. Qed.

Lemma space3_rev_not_space b2 b1 b0 :
  space3 b0 b1 b2 = true -> space1 b2 = false /\ space2 b1 b2 = false.
Proof. byte_facts. Qed.

Lemma trimLeftSpace_nil_iff (l : list ascii) :
  trimLeftSpace l = [] <-> Tokens space1 space2 space3 l.
Proof.
  apply trimFront_nil_iff;
    [apply space2_not_space1 | apply space3_not_space].
Qed.

Lemma trimRightSpace_nil_iff (l : list ascii) :
  trimRightSpace l = [] <-> Tokens space1 space2 space3 l.
Proof.
  unfold trimRightSpace.
  rewrite <- (rev_involutive []) at 1. simpl.
  split.
  - intros Hnil. apply (f_equal (@rev ascii)) in Hnil.
    rewrite rev_involutive in Hnil. simpl in Hnil.
    apply trimFront_nil_iff in Hnil;
      [ | intros; by eapply space2_rev_not_space1
        | intros; by eapply space3_rev_not_space ].
    apply Tokens_rev in Hnil. by rewrite rev_involutive in Hnil.
  - intros Hl. apply Tokens_rev in Hl.
    apply trimFront_Tokens in Hl;
      [ by rewrite Hl
      | intros; by eapply space2_rev_not_space1
      | intros; by eapply space3_rev_not_space ].
Qed.

Lemma string_of_list_ascii_nil (l : list ascii) :
  string_of_list_ascii l = "" <-> l = [].
Proof. destruct l; simpl; split; congruence. Qed.

(** [TrimSpace] leaves nothing exactly of the strings that are empty or
    white space only. *)
Lemma TrimSpace_empty_iff (s : string) :
  TrimSpace s = "" <-> whiteSpaceOnly s.
Proof.
  unfold TrimSpace, whiteSpaceOnly.
  rewrite string_of_list_ascii_nil, trimRightSpace_nil_iff.
  apply Tokens_trimFront;
    [apply space2_not_space1 | apply space3_not_space].
Qed.

(** ** The OVAL identifier pattern *)

Lemma cut_Some (c : ascii) (l a r : list ascii) :
  cut c l = Some (a, r) <-> l = (a ++ c :: r)%list /\ ~ In c a.
Proof.
  revert a. induction l as [|x l IH]; intros a; simpl.
  - split; [discriminate | ]. intros [H _]. by destruct a.
  - destruct (Ascii.eqb_spec x c) as [-> | Hx].
    + split.
      * intros [= <- <-]. split; [reflexivity | intros []].
      * intros [Heq Hin]. destruct a as [|y a]; simpl in Heq.
        -- by injection Heq as ->.
        -- injection Heq as <- _. exfalso. apply Hin. by left.
    + destruct (cut c l) as [[a' r']|] eqn:Hcut.
      * split.
        -- intros [= <- <-]. destruct (proj1 (IH a') eq_refl) as [-> Hin].
           split; [reflexivity | ]. intros [? | ?]; auto.
        -- intros [Heq Hin]. destruct a as [|y a]; simpl in Heq.
           ++ injection Heq as -> _. congruence.
           ++ injection Heq as <- Heq.
              assert (Some (a', r') = Some (a, r)) as [= -> ->]; [ | done].
              apply IH. split; [done | ]. intros ?. apply Hin. by right.
      * split; [discriminate | ].
        intros [Heq Hin]. destruct a as [|y a]; simpl in Heq.
        -- injection Heq as -> _. congruence.
        -- injection Heq as <- Heq.
           assert (None = Some (a, r)); [ | discriminate].
           apply IH. split; [done | ]. intros ?. apply Hin. by right.
Qed.

Lemma cut_None (c : ascii) (l : list ascii) : cut c l = None <-> ~ In c l.
Proof.
  induction l as [|x l IH]; simpl.
  - split; [intros _ [] | reflexivity].
  - destruct (Ascii.eqb_spec x c) as [-> | Hx].
    + split; [discriminate | ]. intros H. exfalso. apply H. by left.
    + destruct (cut c l) as [[a r]|].
      * split; [discriminate | ]. intros H. exfalso.
        assert (Hl : ~ In c l) by (intros ?; apply H; by right).
        apply IH in Hl. discriminate.
      * split; [ | reflexivity]. intros _ [? | Hin]; [done | ].
        by apply (proj1 IH).
Qed.

Lemma noLF_true (l : list ascii) : noLF l = true <-> ~ In LF l.
Proof.
  unfold noLF. rewrite forallb_forall. split.
  - intros H Hin. specialize (H _ Hin). by rewrite Ascii.eqb_refl in H.
  - intros H x Hx. destruct (Ascii.eqb_spec x LF) as [-> | ?]; done.
Qed.

Lemma noLF_app (a b : list ascii) : noLF (a ++ b) = noLF a && noLF b.
Proof. apply forallb_app. Qed.

Lemma noLF_cons (x : ascii) (l : list ascii) :
  noLF (x :: l) = negb (Ascii.eqb x LF) && noLF l.
Proof. reflexivity. Qed.

(** What [ovalSplit] returns is the one reading of its kind. *)
Lemma ovalSplit_Some (l a b c d : list ascii) :
  ovalSplit l = Some (a, b, c, d)
  <-> l = (a ++ ":"%char :: b ++ "-"%char :: c ++ ":"%char :: d)%list
      /\ ~ In ":"%char a /\ ~ In "-"%char b /\ ~ In ":"%char c
      /\ ~ In LF c /\ ~ In LF d.
Proof.
  unfold ovalSplit. split.
  - destruct (cut ":" l) as [[a' r1]|] eqn:H1; [ | discriminate].
    destruct (cut "-" r1) as [[b' r2]|] eqn:H2; [ | discriminate].
    destruct (cut ":" r2) as [[c' d']|] eqn:H3; [ | discriminate].
    destruct (noLF c') eqn:Hc; [ | discriminate].
    destruct (noLF d') eqn:Hd; [ | discriminate].
    intros [= <- <- <- <-].
    apply cut_Some in H1 as [-> ?], H2 as [-> ?], H3 as [-> ?].
    apply noLF_true in Hc, Hd. done.
  - intros (-> & Ha & Hb & Hc & Hc' & Hd).
    rewrite (proj2 (cut_Some ":" _ a _) (conj eq_refl Ha)).
    rewrite (proj2 (cut_Some "-" _ b _) (conj eq_refl Hb)).
    rewrite (proj2 (cut_Some ":" _ c _) (conj eq_refl Hc)).
    apply noLF_true in Hc', Hd. by rewrite Hc', Hd.
Qed.

Lemma ovalSplit_None (l : list ascii) :
  ovalSplit l = None
  <-> forall a b c d,
        ~ (l = (a ++ ":"%char :: b ++ "-"%char :: c ++ ":"%char :: d)%list
           /\ ~ In ":"%char a /\ ~ In "-"%char b /\ ~ In ":"%char c
           /\ ~ In LF c /\ ~ In LF d).
Proof.
  split.
  - intros Hnone a b c d Hshape. apply ovalSplit_Some in Hshape. congruence.
  - intros Hnot. destruct (ovalSplit l) as [[[[a b] c] d]|] eqn:Hsplit;
      [ | reflexivity].
    apply ovalSplit_Some in Hsplit. by destruct (Hnot a b c d).
Qed.

(** ** The matcher on the pattern *)

Lemma run_concat_cons (r : Regexp) (rs : list Regexp) (k : cont)
    (s : list ascii) (pos : nat) (caps : captures) :
  run (OpConcat (r :: rs)) k s pos caps
  = run r (run (OpConcat rs) k) s pos caps.
Proof. reflexivity. Qed.

Lemma run_begin (k : cont) (s : list ascii) (caps : captures) :
  run OpBeginText k s 0 caps = k s 0 caps.
Proof. reflexivity. Qed.

Lemma run_one (p : Single) (k : cont) (x : ascii) (s : list ascii)
    (pos : nat) (caps : captures) :
  run (OpOne p) k (x :: s) pos caps
  = if single_matches p x then k s (S pos) caps else None.
Proof. reflexivity. Qed.

Lemma run_lazy_star (p : Single) (k : cont) (s : list ascii) (pos : nat)
    (caps : captures) :
  run (OpLazyStar p) k s pos caps
  = match k s pos caps with
    | Some m => Some m
    | None =>
        match s with
        | c :: s' =>
            if single_matches p c then run (OpLazyStar p) k s' (S pos) caps
            else None
        | [] => None
        end
    end.
Proof. destruct s; reflexivity. Qed.

(** [[^c]*?] before the literal [c] stops at the first [c]. *)
Lemma run_lazy_until (c : ascii) (K k' : cont) (s : list ascii) (pos : nat)
    (caps : captures) :
  (forall s pos caps,
     K s pos caps = match s with
                    | x :: s' =>
                        if Ascii.eqb x c then k' s' (S pos) caps else None
                    | [] => None
                    end) ->
  run (OpLazyStar (NotChar c)) K s pos caps
  = match cut c s with
    | Some (a, r) => k' r (pos + S (length a)) caps
    | None => None
    end.
Proof.
  intros HK. revert pos.
  induction s as [|x s IH]; intros pos; rewrite run_lazy_star, HK.
  - reflexivity.
  - cbn [cut single_matches].
    destruct (Ascii.eqb x c) eqn:Hx; cbn [negb length].
    + rewrite Nat.add_1_r. destruct (k' s (S pos) caps); reflexivity.
    + rewrite IH. destruct (cut c s) as [[a r]|]; [ | reflexivity].
      cbn [length]. f_equal. lia.
Qed.

(** [.*?] before the end of the text takes a whole line. *)
Lemma run_lazy_to_end (K : cont) (g : nat -> captures -> captures)
    (s : list ascii) (pos : nat) (caps : captures) :
  (forall s pos caps,
     K s pos caps = match s with
                    | [] => Some (g pos caps)
                    | _ :: _ => None
                    end) ->
  run (OpLazyStar AnyCharNotNL) K s pos caps
  = if noLF s then Some (g (pos + length s) caps) else None.
Proof.
  intros HK. revert pos.
  induction s as [|x s IH]; intros pos; rewrite run_lazy_star, HK.
  - cbn [noLF forallb length]. by rewrite Nat.add_0_r.
  - rewrite noLF_cons. cbn [single_matches length].
    destruct (Ascii.eqb x LF); cbn [negb andb]; [reflexivity | ].
    rewrite IH. destruct (noLF s); [ | reflexivity]. do 2 f_equal. lia.
Qed.

Lemma cut_noLF (c : ascii) (s a r : list ascii) :
  c <> LF -> cut c s = Some (a, r) -> noLF s = noLF a && noLF r.
Proof.
  intros Hc Hcut. apply cut_Some in Hcut as [-> _].
  rewrite noLF_app. simpl.
  destruct (Ascii.eqb_spec c LF); [done | reflexivity].
Qed.

(** [.*?] before a colon that is followed by the rest of a line: the
    group ends at the first colon, and no later colon can do instead. *)
Lemma run_lazy_group (K : cont) (f g : nat -> captures -> captures)
    (s : list ascii) (pos : nat) (caps : captures) :
  (forall s pos caps,
     K s pos caps
     = match s with
       | x :: s' =>
           if Ascii.eqb x ":" then
             if noLF s' then Some (g (S pos + length s') (f pos caps))
             else None
           else None
       | [] => None
       end) ->
  run (OpLazyStar AnyCharNotNL) K s pos caps
  = match cut ":" s with
    | Some (c, d) =>
        if noLF c && noLF d then
          Some (g (pos + length s) (f (pos + length c) caps))
        else None
    | None => None
    end.
Proof.
  intros HK. revert pos.
  induction s as [|x s IH]; intros pos; rewrite run_lazy_star, HK.
  - reflexivity.
  - cbn [cut single_matches].
    destruct (Ascii.eqb_spec x ":") as [-> | Hx].
    + change (negb (Ascii.eqb ":" LF)) with true. cbv iota.
      change (noLF [] && noLF s) with (noLF s). cbn [length].
      destruct (noLF s) eqn:Hs.
      * do 2 f_equal; [lia | f_equal; lia].
      * rewrite IH. destruct (cut ":" s) as [[c d]|] eqn:Hcut;
          [ | reflexivity].
        rewrite (cut_noLF ":" s c d) in Hs by done. by rewrite Hs.
    + destruct (Ascii.eqb x LF) eqn:Hlf; cbn [negb].
      * destruct (cut ":" s) as [[c d]|]; [ | reflexivity].
        by rewrite noLF_cons, Hlf.
      * rewrite IH. destruct (cut ":" s) as [[c d]|]; [ | reflexivity].
        rewrite (noLF_cons x c), Hlf. cbn [negb andb length].
        destruct (noLF c && noLF d); [ | reflexivity].
        do 2 f_equal; [lia | f_equal; lia].
Qed.

Ltac until_first :=
  match goal with
  | |- context [run (OpLazyStar (NotChar ?c)) (run (OpConcat (_ :: ?rs)) ?k)] =>
      rewrite (run_lazy_until c _ (run (OpConcat rs) k))
        by (intros [|? ?] ? ?; reflexivity)
  end.

(** The match of [ovalRegex] from the start of the text. *)
Lemma run_ovalRegex (l : list ascii) :
  run (OpCapture 0 ovalRegex) (fun _ _ caps => Some caps) l 0 ∅
  = match ovalSplit l with
    | Some (a, b, c, d) =>
        let lo := S (length a) + S (length b) in
        Some (<[0 := (0, lo + (length c + S (length d)))]>
                (<[1 := (lo, lo + length c)]> ∅))
    | None => None
    end.
Proof.
  unfold ovalRegex, ovalSplit.
  change (run (OpCapture 0 ?r) ?k l 0 ∅)
    with (run r (fun s' pos' caps' => k s' pos' (<[0 := (0, pos')]> caps'))
              l 0 ∅).
  cbv beta.
  rewrite run_concat_cons, run_begin.
  rewrite run_concat_cons. until_first.
  destruct (cut ":" l) as [[a r1]|]; [ | reflexivity].
  rewrite run_concat_cons. until_first.
  destruct (cut "-" r1) as [[b r2]|] eqn:Hb; [ | reflexivity].
  rewrite run_concat_cons.
  change (run (OpCapture 1 ?r) ?k r2 ?p ∅)
    with (run r (fun s' pos' caps' => k s' pos' (<[1 := (p, pos')]> caps'))
              r2 p ∅).
  erewrite (run_lazy_group _ (fun pos' caps' => <[1 := (_, pos')]> caps')
                           (fun pos' caps' => <[0 := (0, pos')]> caps')).
  2:{ intros [|x s'] pos caps; [reflexivity | ].
      rewrite run_concat_cons, run_one. cbn [single_matches].
      destruct (Ascii.eqb x ":"); [ | reflexivity].
      rewrite run_concat_cons.
      erewrite (run_lazy_to_end _ (fun pos' caps' => <[0 := (0, pos')]> caps'));
        [reflexivity | ].
      intros [|? ?] ? ?; reflexivity. }
  destruct (cut ":" r2) as [[c d]|] eqn:Hc; [ | reflexivity].
  destruct (noLF c && noLF d); [ | reflexivity].
  apply cut_Some in Hc as [-> _]. cbv zeta.
  rewrite length_app. reflexivity.
Qed.

Lemma search_unfold (r : Regexp) (l : list ascii) (pos : nat) :
  search r l pos
  = match run (OpCapture 0 r) (fun _ _ caps => Some caps) l pos ∅ with
    | Some m => Some m
    | None =>
        match l with
        | [] => None
        | _ :: l' => search r l' (S pos)
        end
    end.
Proof. destruct l; reflexivity. Qed.

Lemma search_ovalRegex_later (l : list ascii) (pos : nat) :
  search ovalRegex l (S pos) = None.
Proof.
  revert pos. induction l as [|x l IH]; intros pos; rewrite search_unfold.
  - reflexivity.
  - change (run (OpCapture 0 ovalRegex) (fun _ _ caps => Some caps)
                (x :: l) (S pos) ∅) with (@None captures).
    apply IH.
Qed.

Lemma search_ovalRegex (l : list ascii) :
  search ovalRegex l 0
  = run (OpCapture 0 ovalRegex) (fun _ _ caps => Some caps) l 0 ∅.
Proof.
  rewrite search_unfold.
  destruct (run (OpCapture 0 ovalRegex) _ l 0 ∅); [reflexivity | ].
  destruct l; [reflexivity | apply search_ovalRegex_later].
Qed.

Lemma slice_all (l : list ascii) : slice l 0 (length l) = l.
Proof. unfold slice. by rewrite Nat.sub_0_r, drop_0, firstn_all. Qed.

Lemma slice_middle (p c r : list ascii) :
  slice (p ++ c ++ r) (length p) (length p + length c) = c.
Proof.
  unfold slice. rewrite drop_app_length.
  replace (length p + length c - length p) with (length c) by lia.
  by rewrite take_app_length.
Qed.

(** What [FindStringSubmatch] returns for [ovalRegex]: the whole text and
    the short name when the text reads as an identifier, nil otherwise. *)
Lemma FindStringSubmatch_ovalRegex (s : string) :
  FindStringSubmatch ovalRegex s
  = match ovalSplit (list_ascii_of_string s) with
    | Some (a, b, c, d) => [s; string_of_list_ascii c]
    | None => []
    end.
Proof.
  unfold FindStringSubmatch. rewrite search_ovalRegex, run_ovalRegex.
  destruct (ovalSplit (list_ascii_of_string s)) as [[[[a b] c] d]|] eqn:Hsplit;
    [ | reflexivity].
  apply ovalSplit_Some in Hsplit as [Htext _].
  cbv zeta.
  change (seq 0 (S (NumSubexp ovalRegex))) with [0; 1].
  cbn [map]. rewrite lookup_insert_eq.
  rewrite lookup_insert_ne, lookup_insert_eq by done.
  f_equal; [ | f_equal]; f_equal.
  - rewrite <- (string_of_list_ascii_of_string s) at 2. f_equal.
    rewrite <- (slice_all (list_ascii_of_string s)) at 2. f_equal.
    rewrite Htext. repeat (progress (rewrite ?length_app; simpl)). lia.
  - rewrite Htext.
    replace (a ++ ":"%char :: b ++ "-"%char :: c ++ ":"%char :: d)%list
      with ((a ++ ":"%char :: b ++ ["-"%char]) ++ c ++ ":"%char :: d)%list
      by (rewrite <- !app_assoc; simpl; by rewrite <- !app_assoc).
    replace (S (length a) + S (length b))
      with (length (a ++ ":"%char :: b ++ ["-"%char]))
      by (repeat (progress (rewrite ?length_app; simpl)); lia).
    apply slice_middle.
Qed.

(** [parseCheck] by cases on the trimmed [name] attribute. *)
Lemma parseCheck_cases (check : Node) :
  parseCheck check
  = let ovalCheckName := TrimSpace (SelectAttr check "name") in
    if String.eqb ovalCheckName "" then
      ("", Some (errors_New "check-content-ref node has no 'name' attribute"))
    else
      match ovalSplit (list_ascii_of_string ovalCheckName) with
      | Some (a, b, c, d) => (string_of_list_ascii c, None)
      | None =>
          ("", Some (fmt_Errorf "check id %q is in unexpected format"
                                [arg_string ovalCheckName]))
      end.
Proof.
  unfold parseCheck. cbv zeta.
  destruct (String.eqb _ ""); [reflexivity | ].
  rewrite FindStringSubmatch_ovalRegex.
  by destruct (ovalSplit _) as [[[[a b] c] d]|].
Qed.

(** ** The identifier normalizer *)

Lemma ovalShape_split (identifier short : string) :
  ovalShape identifier short
  <-> exists a b d,
        ovalSplit (list_ascii_of_string identifier)
        = Some (a, b, list_ascii_of_string short, d).
Proof.
  unfold ovalShape. split; intros (a & b & d & H); exists a, b, d;
    by apply ovalSplit_Some.
Qed.

Lemma ovalShape_none (identifier : string) :
  (forall short, ~ ovalShape identifier short)
  <-> ovalSplit (list_ascii_of_string identifier) = None.
Proof.
  split.
  - intros Hnone.
    destruct (ovalSplit _) as [[[[a b] c] d]|] eqn:Hsplit; [ | reflexivity].
    destruct (Hnone (string_of_list_ascii c)).
    apply ovalShape_split. exists a, b, d.
    by rewrite list_ascii_of_string_of_list_ascii.
  - intros Hsplit short (a & b & d & H)%ovalShape_split. congruence.
Qed.

Lemma parseCheck_missing (check : Node) :
  whiteSpaceOnly (SelectAttr check "name") ->
  parseCheck check = ("", Some errMissingName).
Proof.
  intros Hws%TrimSpace_empty_iff.
  rewrite parseCheck_cases. cbv zeta. by rewrite Hws.
Qed.

Lemma parseCheck_malformed (check : Node) :
  ~ whiteSpaceOnly (SelectAttr check "name") ->
  (forall short, ~ ovalShape (TrimSpace (SelectAttr check "name")) short) ->
  parseCheck check
  = ("", Some (errUnexpectedFormat (TrimSpace (SelectAttr check "name")))).
Proof.
  intros Hws Hshape. rewrite parseCheck_cases. cbv zeta.
  destruct (String.eqb_spec (TrimSpace (SelectAttr check "name")) "")
    as [Hempty | _].
  - by apply TrimSpace_empty_iff in Hempty.
  - apply ovalShape_none in Hshape. by rewrite Hshape.
Qed.

Lemma parseCheck_short (check : Node) (short : string) :
  ~ whiteSpaceOnly (SelectAttr check "name") ->
  ovalShape (TrimSpace (SelectAttr check "name")) short ->
  parseCheck check = (short, None).
Proof.
  intros Hws (a & b & d & Hsplit)%ovalShape_split.
  rewrite parseCheck_cases. cbv zeta.
  destruct (String.eqb_spec (TrimSpace (SelectAttr check "name")) "")
    as [Hempty | _].
  - by apply TrimSpace_empty_iff in Hempty.
  - by rewrite Hsplit, string_of_list_ascii_of_string.
Qed.

(** C8. [parseCheck] fails in two cases and in no other.  When the [name]
    attribute is empty or white space only, the error is the
    missing-name one.  When the trimmed name is not empty and does not
    have the shape of an identifier -- in particular when it holds no
    colon -- the error is the unexpected-format one, formatted with the
    trimmed name.  On every other input, that is when the trimmed name
    has the shape with some short name, that short name is returned with
    the nil error. *)
Theorem parseCheck_fails_exactly (check : Node) :
  let name := SelectAttr check "name" in
  let trimmed := TrimSpace name in
  (whiteSpaceOnly name -> parseCheck check = ("", Some errMissingName))
  /\ (~ whiteSpaceOnly name ->
      (forall short, ~ ovalShape trimmed short) ->
      parseCheck check = ("", Some (errUnexpectedFormat trimmed)))
  /\ (~ whiteSpaceOnly name ->
      ~ In ":"%char (list_ascii_of_string trimmed) ->
      parseCheck check = ("", Some (errUnexpectedFormat trimmed)))
  /\ (forall short,
        ~ whiteSpaceOnly name ->
        ovalShape trimmed short ->
        parseCheck check = (short, None))
  /\ ((parseCheck check).2 <> None
      <-> whiteSpaceOnly name \/ forall short, ~ ovalShape trimmed short).
Proof.
  intros name trimmed. subst name trimmed.
  split; [apply parseCheck_missing | ].
  split; [apply parseCheck_malformed | ].
  split.
  { intros Hws Hcolon. apply parseCheck_malformed; [done | ].
    intros short (a & b & d & Htext & _). apply Hcolon.
    rewrite Htext. apply in_or_app. right. by left. }
  split; [intros short; apply parseCheck_short | ].
  rewrite parseCheck_cases. cbv zeta.
  destruct (String.eqb_spec (TrimSpace (SelectAttr check "name")) "")
    as [Hempty | Hfull].
  - apply TrimSpace_empty_iff in Hempty. split; [by left | done].
  - rewrite ovalShape_none.
    destruct (ovalSplit _) as [[[[a b] c] d]|] eqn:Hsplit; simpl.
    + split; [done | ]. intros [Hws | ?]; [ | done].
      by apply TrimSpace_empty_iff in Hws.
    + split; [by right | done].
Qed.

(** ** The end-to-end scenario *)

Lemma parseCheck_sshd (ovalRefEl : Node) :
  SelectAttr ovalRefEl "name" = "oval:ssg-sshd_enabled-1:def:1" ->
  parseCheck ovalRefEl = ("sshd_enabled-1", None).
Proof. intros Hname. unfold parseCheck. rewrite Hname. reflexivity. Qed.

(** C1, as the code has it.  Take a document that parses, whose target
    element holds "host1", with the single rule-result for "rule1" and the
    outcome token "fail", where the relevant OVAL check of rule "rule1" is
    named "oval:ssg-sshd_enabled-1:def:1".  The identifier normalizes to
    "sshd_enabled-1".  Against a policy check set that holds
    "sshd_enabled-1", [GetResults] returns the nil error and exactly one
    observation: check ID "sshd_enabled-1", one subject with result Fail
    and resource ID "host1", and the reason "openscap rule-result is
    fail".  Against a policy check set that does not hold it (such as the
    set of "sshd_enabled" alone), it returns no observation and the nil
    error. *)
Theorem GetResults_end_to_end (w : World) (s : PluginServer)
    (oscalPolicy : policy.Policy)
    (xmlnode targetEl result resultEl rule ovalRefEl : Node) :
  opened w s xmlnode ->
  SelectElement xmlnode "//target" = Some targetEl ->
  InnerText targetEl = "host1" ->
  SelectElements xmlnode "//rule-result" = [result] ->
  SelectAttr result "idref" = "rule1" ->
  SelectElement result "result" = Some resultEl ->
  InnerText resultEl = "fail" ->
  xccdf_NewRuleHashTable w xmlnode !! "rule1" = Some rule ->
  firstOvalRef (SelectElements rule "//xccdf-1.2:check") = Some ovalRefEl ->
  SelectAttr ovalRefEl "name" = "oval:ssg-sshd_enabled-1:def:1" ->
  (Has (LoadPolicy newChecks oscalPolicy) "sshd_enabled-1" = true ->
   exists observation subject,
     GetResults w s oscalPolicy = (policy.mkPVPResult [observation], None)
     /\ policy.CheckID observation = "sshd_enabled-1"
     /\ policy.Subjects observation = [subject]
     /\ policy.Result_ subject = policy.ResultFail
     /\ policy.ResourceID subject = "host1"
     /\ policy.Reason subject = "openscap rule-result is fail"
     /\ Contains (policy.Reason subject) "fail")
  /\ (Has (LoadPolicy newChecks oscalPolicy) "sshd_enabled-1" = false ->
      GetResults w s oscalPolicy = (policy.mkPVPResult [], None)).
Proof.
  intros Hopen Htarget Hhost Hresults Hidref Hel Htoken Hrule Href Hname.
  rewrite (GetResults_opened _ _ _ _ Hopen), Htarget, Hresults, Hhost.
  rewrite forResults_cons. unfold outcomeOf.
  rewrite Hidref, Hrule, Href, (parseCheck_sshd _ Hname).
  split; intros ->; [ | reflexivity].
  rewrite (mapResultStatus_token _ _ Hel), Htoken. cbv zeta.
  change (String.eqb "fail" "pass" || String.eqb "fail" "fixed") with false.
  change (String.eqb "fail" "fail") with true. cbv iota.
  eexists _, _. split; [reflexivity | ].
  unfold newObservation, resultText. rewrite Hel, Htoken.
  repeat split.
  exists "openscap rule-result is ", "". reflexivity.
Qed.

(** ** The scenarios, evaluated *)

(** The end-to-end scenario with the policy check set of "sshd_enabled":
    the identifier normalizes to "sshd_enabled-1", which the set does not
    hold, and no observation is returned. *)
Lemma GetResults_sshd_enabled_no_observation :
  parseCheck (sample.contentRef "oval:ssg-sshd_enabled-1:def:1")
    = ("sshd_enabled-1", None)
  /\ GetResults (sample.world sample.sshdDocument) sample.plugin
                (sample.policyOf ["sshd_enabled"])
     = (policy.mkPVPResult [], None)
  /\ ~ (exists observation,
          GetResults (sample.world sample.sshdDocument) sample.plugin
                     (sample.policyOf ["sshd_enabled"])
          = (policy.mkPVPResult [observation], None)).
Proof.
  split; [reflexivity | ]. split; [reflexivity | ].
  intros [observation H]. vm_compute in H. discriminate H.
Qed.

Lemma GetResults_end_to_end_witness :
  Has (LoadPolicy newChecks (sample.policyOf ["sshd_enabled-1"]))
      "sshd_enabled-1" = true
  /\ exists observation subject,
       GetResults (sample.world sample.sshdDocument) sample.plugin
                  (sample.policyOf ["sshd_enabled-1"])
       = (policy.mkPVPResult [observation], None)
       /\ policy.CheckID observation = "sshd_enabled-1"
       /\ policy.Subjects observation = [subject]
       /\ policy.Result_ subject = policy.ResultFail
       /\ policy.ResourceID subject = "host1"
       /\ policy.Reason subject = "openscap rule-result is fail"
       /\ Contains (policy.Reason subject) "fail".
Proof.
  split; [reflexivity | ].
  refine (proj1 (GetResults_end_to_end
                   (sample.world sample.sshdDocument) sample.plugin
                   (sample.policyOf ["sshd_enabled-1"])
                   sample.sshdDocument
                   (sample.element "" "target" [] [sample.textNode "host1"])
                   (sample.ruleResult "rule1" "fail")
                   (sample.element "" "result" [] [sample.textNode "fail"])
                   (sample.rule "rule1"
                      [sample.checkOf ovalCheckType
                                      "oval:ssg-sshd_enabled-1:def:1"])
                   (sample.contentRef "oval:ssg-sshd_enabled-1:def:1")
                   _ _ _ _ _ _ _ _ _ _) _);
    try reflexivity.
  split; [reflexivity | ]. exists "". split; reflexivity.
Defined.

Lemma opened_sample (doc : Node) : opened (sample.world doc) sample.plugin doc.
Proof. split; [reflexivity | ]. exists "". split; reflexivity. Defined.

Lemma mapResultStatus_total_witness :
  mapResultStatus (sample.ruleResult "rule1" "fixed")
    = (policy.ResultPass, None)
  /\ mapResultStatus (sample.ruleResult "rule1" "informational")
     = (policy.ResultInvalid,
        Some (fmt_Errorf "couldn't match %s" [arg_string "informational"])).
Proof.
  split.
  - apply (mapResultStatus_total
             (sample.ruleResult "rule1" "fixed")
             (sample.element "" "result" [] [sample.textNode "fixed"])
             eq_refl).
    right. reflexivity.
  - apply (mapResultStatus_total
             (sample.ruleResult "rule1" "informational")
             (sample.element "" "result" [] [sample.textNode "informational"])
             eq_refl); discriminate.
Defined.

Lemma GetResults_missing_target_witness :
  SelectElement sample.noTargetDocument "//target" = None
  /\ GetResults (sample.world sample.noTargetDocument) sample.plugin
                (sample.policyOf ["X"])
     = (policy.mkPVPResult [],
        Some (errors_New "result has no 'target' attribute")).
Proof.
  split; [reflexivity | ].
  apply (GetResults_missing_target _ _ _ sample.noTargetDocument).
  - apply opened_sample.
  - intros n Hn (_ & Hdata & _). vm_compute in Hn.
    repeat (destruct Hn as [<- | Hn]; [discriminate Hdata | ]).
    destruct Hn.
Defined.

Lemma GetResults_malformed_identifier_aborts_witness :
  forResults (sample.world sample.malformedDocument) sample.plugin
             (LoadPolicy newChecks (sample.policyOf ["X"])) "host1"
             (NewRuleHashTable sample.malformedDocument)
             [sample.ruleResult "rule1" "pass"] (policy.mkPVPResult []) 0
    = (policy.mkPVPResult
         [newObservation (sample.world sample.malformedDocument) sample.plugin
                         0 "rule1" "X" "host1" policy.ResultPass
                         (sample.ruleResult "rule1" "pass")],
       None)
  /\ GetResults (sample.world sample.malformedDocument) sample.plugin
                (sample.policyOf ["X"])
     = (policy.mkPVPResult [], Some (errUnexpectedFormat "nocolon")).
Proof.
  split; [reflexivity | ].
  refine (proj1 (GetResults_malformed_identifier_aborts
                   (sample.world sample.malformedDocument) sample.plugin
                   (sample.policyOf ["X"]) sample.malformedDocument
                   (sample.element "" "target" [] [sample.textNode "host1"])
                   [sample.ruleResult "rule1" "pass"] []
                   (sample.ruleResult "rule2" "fail")
                   (sample.rule "rule2"
                      [sample.checkOf ovalCheckType "nocolon"])
                   (sample.contentRef "nocolon")
                   _ (errUnexpectedFormat "nocolon")
                   (opened_sample _) _ _ _ _ _ _));
    reflexivity.
Defined.

Lemma GetResults_error_no_partial_witness :
  (GetResults (sample.world sample.malformedDocument) sample.plugin
              (sample.policyOf ["X"])).2
    = Some (errUnexpectedFormat "nocolon")
  /\ (GetResults (sample.world sample.malformedDocument) sample.plugin
                 (sample.policyOf ["X"])).1
     = policy.mkPVPResult [].
Proof.
  split; [reflexivity | ].
  apply (GetResults_error_no_partial _ _ _ (errUnexpectedFormat "nocolon")).
  reflexivity.
Defined.

Lemma GetResults_check_outside_policy_witness :
  parseCheck (sample.contentRef "oval:ssg-X:def:1")
    = ("X", None)
  /\ Has (LoadPolicy newChecks (sample.policyOf ["Y"])) "X" = false
  /\ GetResults (sample.world sample.skipDocument) sample.plugin
                (sample.policyOf ["Y"])
     = (policy.mkPVPResult [], None).
Proof.
  split; [reflexivity | ]. split; [reflexivity | ].
  refine (proj2 (GetResults_check_outside_policy
                   (sample.world sample.skipDocument) sample.plugin
                   (sample.policyOf ["Y"]) sample.skipDocument
                   (sample.element "" "target" [] [sample.textNode "host1"])
                   (sample.ruleResult "rule1" "pass")
                   (sample.rule "rule1"
                      [sample.checkOf ovalCheckType "oval:ssg-X:def:1"])
                   (sample.contentRef "oval:ssg-X:def:1")
                   "X" _ _ _ _) (opened_sample _) _ _);
    reflexivity.
Defined.

Lemma firstOvalRef_first_in_document_order_witness :
  SelectElements sample.threeChecksRule "//xccdf-1.2:check"
    = [sample.scriptCheck; sample.firstOval; sample.secondOval]
  /\ firstOvalRef (SelectElements sample.threeChecksRule "//xccdf-1.2:check")
     = SelectElement sample.firstOval "xccdf-1.2:check-content-ref"
  /\ parseCheck
       <$> firstOvalRef
             (SelectElements sample.threeChecksRule "//xccdf-1.2:check")
     = Some ("A", None).
Proof.
  split; [reflexivity | ]. split; [ | reflexivity].
  refine (proj1 (firstOvalRef_first_in_document_order
                   sample.threeChecksRule [sample.scriptCheck]
                   [sample.secondOval] sample.firstOval _ _ _)).
  - reflexivity.
  - constructor; [discriminate | constructor].
  - reflexivity.
Defined.

(** ** Further runs of the model *)

Example parseCheck_oval_X :
  parseCheck (sample.contentRef "oval:ssg-X:def:1") = ("X", None).
Proof. reflexivity. Qed.

Example parseCheck_trims_first :
  parseCheck (sample.contentRef "  oval:ssg-sshd_enabled:def:1 ")
  = ("sshd_enabled", None).
Proof. reflexivity. Qed.

Example parseCheck_next_colon :
  parseCheck (sample.contentRef "oval:ssg-a:b:c") = ("a", None).
Proof. reflexivity. Qed.

Example parseCheck_blank :
  parseCheck (sample.contentRef "   ") = ("", Some errMissingName).
Proof. reflexivity. Qed.

Example parseCheck_no_colon :
  parseCheck (sample.contentRef "nocolon")
  = ("", Some (errUnexpectedFormat "nocolon")).
Proof. reflexivity. Qed.

Example parseCheck_no_hyphen :
  parseCheck (sample.contentRef "oval:ssg:def:1")
  = ("", Some (errUnexpectedFormat "oval:ssg:def:1")).
Proof. reflexivity. Qed.

(** A line feed in the suffix is outside the shape. *)
Example parseCheck_line_feed :
  parseCheck (sample.contentRef ("oval:ssg-X:def" +:+ String LF "1"))
  = ("", Some (errUnexpectedFormat ("oval:ssg-X:def" +:+ String LF "1"))).
Proof. reflexivity. Qed.

(** A manifest that names the reserved options changes neither of them. *)
Example ToMap_manifest_cannot_override :
  let p := complytime.mkPluginOptions "/ws" "cis" "/etc/complytime" in
  let r := complytime.ToMap (sample.manifestWorld sample.overridingOptions)
                            p "openscap" in
  r.1.2 = None
  /\ r.1.1 !! "workspace" = Some "/ws"
  /\ r.1.1 !! "profile" = Some "cis"
  /\ r.1.1 !! "datastream" = Some "ds.xml"
  /\ size r.1.1 = 3.
Proof. vm_compute. repeat split. Qed.

(** The reason of an observation never falls back to the empty text: a
    rule-result that [mapResultStatus] accepts has its [result] child. *)
Lemma mapResultStatus_ok_result (result : Node) :
  (mapResultStatus result).2 = None ->
  exists resultEl,
    SelectElement result "result" = Some resultEl
    /\ resultText result = InnerText resultEl.
Proof.
  unfold mapResultStatus, resultText.
  destruct (SelectElement result "result") as [resultEl|]; [ | discriminate].
  intros _. by exists resultEl.
Qed.


(* ===================================================================== *)
(** * Further properties of the two packages                              *)
(* ===================================================================== *)

Set Warnings "-clear-no-such-hyp".

(** ** Status and identifier *)

(** X1. [mapResultStatus] returns Invalid exactly when it returns an
    error: no recognized status comes with an error and Invalid never
    comes without one.  A rule-result without a [result] child is such a
    case, with the error "result node has no 'result' attribute". *)
Theorem mapResultStatus_invalid_iff_error (result : Node) :
  ((mapResultStatus result).1 = policy.ResultInvalid
   <-> (mapResultStatus result).2 <> None)
  /\ (SelectElement result "result" = None ->
      mapResultStatus result
      = (policy.ResultInvalid,
         Some (errors_New "result node has no 'result' attribute"))).
Proof.
  unfold mapResultStatus.
  destruct (SelectElement result "result") as [resultEl|].
  - split; [ | discriminate]. cbv zeta.
    repeat (destruct (String.eqb _ _); simpl;
            try (split; [discriminate | intros H; by destruct H])).
    split; [discriminate | reflexivity].
  - split; [ | reflexivity]. split; [discriminate | reflexivity].
Qed.

Lemma string_of_list_ascii_app (a b : list ascii) :
  string_of_list_ascii (a ++ b)
  = string_of_list_ascii a +:+ string_of_list_ascii b.
Proof. induction a as [|x a IH]; simpl; [reflexivity | by rewrite IH]. Qed.

Lemma string_app_assoc (a b c : string) : (a +:+ b) +:+ c = a +:+ b +:+ c.
Proof.
  induction a as [|x a IH]; [reflexivity | ].
  change (String x ((a +:+ b) +:+ c) = String x (a +:+ b +:+ c)).
  by f_equal.
Qed.

(** X2. What [parseCheck] returns is consistent: with an error the name
    is empty; without one, the name holds neither a colon nor a line
    feed, and the trimmed [name] attribute holds it between a hyphen and a
    colon. *)
Theorem parseCheck_result_invariant (check : Node) :
  ((parseCheck check).2 <> None -> (parseCheck check).1 = "")
  /\ ((parseCheck check).2 = None ->
      ~ In ":"%char (list_ascii_of_string (parseCheck check).1)
      /\ ~ In LF (list_ascii_of_string (parseCheck check).1)
      /\ Contains (TrimSpace (SelectAttr check "name"))
                  ("-" +:+ (parseCheck check).1 +:+ ":")).
Proof.
  rewrite parseCheck_cases. cbv zeta.
  destruct (String.eqb _ ""); [split; [reflexivity | discriminate] | ].
  destruct (ovalSplit _) as [[[[a b] c] d]|] eqn:Hsplit; simpl;
    [ | split; [reflexivity | discriminate]].
  split; [intros H; by destruct H | intros _].
  apply ovalSplit_Some in Hsplit as (Htext & _ & _ & Hc & Hlf & _).
  rewrite list_ascii_of_string_of_list_ascii.
  split; [exact Hc | ]. split; [exact Hlf | ].
  exists (string_of_list_ascii (a ++ ":"%char :: b)), (string_of_list_ascii d).
  rewrite <- (string_of_list_ascii_of_string (TrimSpace _)), Htext.
  replace (a ++ ":"%char :: b ++ "-"%char :: c ++ ":"%char :: d)%list
    with ((a ++ ":"%char :: b) ++ ("-"%char :: c) ++ ":"%char :: d)%list
    by (rewrite <- app_assoc; reflexivity).
  rewrite !string_of_list_ascii_app.
  apply (f_equal (String.append _)).
  rewrite !string_app_assoc. reflexivity.
Qed.

(** ** The policy check set, as a set *)

Lemma loadChecks_dom (cs : list policy.Check) (c : checks) :
  dom (foldl (fun c x => <[policy.ID x := tt]> c) c cs)
  = dom c ∪ list_to_set (map policy.ID cs).
Proof.
  revert c. induction cs as [|x cs IH]; intros c; simpl.
  - set_solver.
  - rewrite IH, dom_insert_L. set_solver.
Qed.

Lemma checks_eq (c c' : checks) : dom c = dom c' -> c = c'.
Proof.
  intros Hdom. apply map_eq. intros i.
  destruct (c !! i) as [[]|] eqn:Hc, (c' !! i) as [[]|] eqn:Hc';
    try reflexivity.
  - apply (elem_of_dom_2 c) in Hc. rewrite Hdom in Hc.
    apply elem_of_dom in Hc as [? ?]. congruence.
  - apply (elem_of_dom_2 c') in Hc'. rewrite <- Hdom in Hc'.
    apply elem_of_dom in Hc' as [? ?]. congruence.
Qed.

Lemma LoadPolicy_dom_checkIDs (oscalPolicy : policy.Policy) (c : checks) :
  dom (LoadPolicy c oscalPolicy) = dom c ∪ list_to_set (checkIDs oscalPolicy).
Proof.
  unfold LoadPolicy, checkIDs. revert c.
  induction oscalPolicy as [|rule rules IH]; intros c; simpl.
  - set_solver.
  - rewrite IH, loadChecks_dom, list_to_set_app_L. set_solver.
Qed.

(** X3. [LoadPolicy] adds to the set the identifiers of all checks of all
    rules and nothing else: the members afterwards are the members before
    and the declared identifiers.  Loading the same policy again changes
    nothing, and loading two policies one after the other is loading
    their concatenation. *)
Theorem LoadPolicy_set (oscalPolicy more : policy.Policy) (c : checks) :
  dom (LoadPolicy c oscalPolicy) = dom c ∪ list_to_set (checkIDs oscalPolicy)
  /\ LoadPolicy (LoadPolicy c oscalPolicy) oscalPolicy
     = LoadPolicy c oscalPolicy
  /\ LoadPolicy (LoadPolicy c oscalPolicy) more
     = LoadPolicy c (oscalPolicy ++ more)%list.
Proof.
  split; [apply LoadPolicy_dom_checkIDs | ]. split.
  - apply checks_eq. rewrite !LoadPolicy_dom_checkIDs. set_solver.
  - unfold LoadPolicy. by rewrite foldl_app.
Qed.

(** X4. [GetResults] reads the policy through the set of its check
    identifiers only: two policies that declare the same identifiers, in
    whatever order, grouping and multiplicity, give the same result and
    the same error in the same surroundings. *)
Theorem GetResults_policy_as_set (w : World) (s : PluginServer)
    (oscalPolicy oscalPolicy' : policy.Policy) :
  (forall id, In id (checkIDs oscalPolicy) <-> In id (checkIDs oscalPolicy')) ->
  GetResults w s oscalPolicy = GetResults w s oscalPolicy'.
Proof.
  intros Hids.
  assert (LoadPolicy newChecks oscalPolicy = LoadPolicy newChecks oscalPolicy')
    as Hload.
  { apply checks_eq. rewrite !LoadPolicy_dom_checkIDs.
    apply set_eq. intros id. rewrite !elem_of_union, !elem_of_list_to_set.
    rewrite !list_elem_of_In. by rewrite Hids. }
  unfold GetResults. by rewrite Hload.
Qed.

Lemma GetResults_policy_as_set_witness :
  GetResults (sample.world sample.mixedDocument) sample.plugin
             (sample.policyOf ["X"; "Y"; "Y"])
  = GetResults (sample.world sample.mixedDocument) sample.plugin
               (sample.policyOf ["Y"] ++ sample.policyOf ["X"])%list.
Proof.
  apply (GetResults_policy_as_set _ _ (sample.policyOf ["X"; "Y"; "Y"])
           (sample.policyOf ["Y"] ++ sample.policyOf ["X"])%list).
  intros id. simpl. tauto.
Defined.

(** ** The loop of GetResults, as a whole *)

Section Loop.
Variables (w : World) (s : PluginServer) (policyChecks : checks).
Variables (target : string) (ruleTable : gmap string Node).

(** Without an error the loop has appended the observations of the
    rule-results that give one. *)
Lemma forResults_success (results : list Node)
    (pvpResults pvp : policy.PVPResult) (tick : nat) :
  forResults w s policyChecks target ruleTable results pvpResults tick
    = (pvp, None) ->
  policy.ObservationsByCheck pvp
  = (policy.ObservationsByCheck pvpResults
     ++ observe w s policyChecks target ruleTable results tick)%list.
Proof.
  revert pvpResults tick.
  induction results as [|result rest IH]; intros pvpResults tick.
  - intros [= <-]. simpl. by rewrite app_nil_r.
  - rewrite forResults_cons. simpl.
    destruct (outcomeOf policyChecks ruleTable result); [apply IH | done | ].
    intros Hrest. rewrite (IH _ _ Hrest). simpl. by rewrite <- app_assoc.
Qed.

(** The loop ends without an error exactly when no rule-result aborts. *)
Lemma forResults_ok_iff (results : list Node) (pvpResults : policy.PVPResult)
    (tick : nat) :
  (forResults w s policyChecks target ruleTable results pvpResults tick).2
    = None
  <-> Forall (fun r => isAborted (outcomeOf policyChecks ruleTable r) = false)
             results.
Proof.
  revert pvpResults tick.
  induction results as [|result rest IH]; intros pvpResults tick.
  - split; [constructor | reflexivity].
  - rewrite forResults_cons, Forall_cons.
    destruct (outcomeOf policyChecks ruleTable result); simpl.
    + rewrite IH. tauto.
    + split; [discriminate | intros [? _]; discriminate].
    + rewrite IH. tauto.
Qed.

(** The error of the loop is that of the first rule-result that aborts. *)
Lemma forResults_error_iff (results : list Node)
    (pvpResults : policy.PVPResult) (tick : nat) (err : error) :
  (forResults w s policyChecks target ruleTable results pvpResults tick).2
    = Some err
  <-> exists pre r post,
        results = (pre ++ r :: post)%list
        /\ Forall (fun x => isAborted (outcomeOf policyChecks ruleTable x)
                            = false) pre
        /\ outcomeOf policyChecks ruleTable r = Aborted err.
Proof.
  revert pvpResults tick.
  induction results as [|result rest IH]; intros pvpResults tick.
  - split; [discriminate | ]. intros (pre & r & post & Heq & _).
    by destruct pre.
  - rewrite forResults_cons.
    destruct (outcomeOf policyChecks ruleTable result) as [|e|c m] eqn:Hout.
    + rewrite IH. split.
      * intros (pre & r & post & -> & Hpre & Hr).
        exists (result :: pre), r, post. repeat split; [ | done].
        constructor; [by rewrite Hout | done].
      * intros (pre & r & post & Heq & Hpre & Hr).
        destruct pre as [|x pre]; simpl in Heq; injection Heq as <- ->.
        -- congruence.
        -- apply Forall_cons in Hpre as [_ Hpre]. by exists pre, r, post.
    + simpl. split.
      * intros [= ->]. exists [], result, rest. repeat split; done.
      * intros (pre & r & post & Heq & Hpre & Hr).
        destruct pre as [|x pre]; simpl in Heq; injection Heq as <- ->.
        -- congruence.
        -- apply Forall_cons in Hpre as [Hx _]. by rewrite Hout in Hx.
    + rewrite IH. split.
      * intros (pre & r & post & -> & Hpre & Hr).
        exists (result :: pre), r, post. repeat split; [ | done].
        constructor; [by rewrite Hout | done].
      * intros (pre & r & post & Heq & Hpre & Hr).
        destruct pre as [|x pre]; simpl in Heq; injection Heq as <- ->.
        -- congruence.
        -- apply Forall_cons in Hpre as [_ Hpre]. by exists pre, r, post.
Qed.

(** Rule-results that are passed over can be left out. *)
Lemma forResults_filter_skipped (results : list Node)
    (pvpResults : policy.PVPResult) (tick : nat) :
  forResults w s policyChecks target ruleTable results pvpResults tick
  = forResults w s policyChecks target ruleTable
      (List.filter
         (fun r => negb (isSkipped (outcomeOf policyChecks ruleTable r)))
         results)
      pvpResults tick.
Proof.
  revert pvpResults tick.
  induction results as [|result rest IH]; intros pvpResults tick;
    [reflexivity | ].
  rewrite forResults_cons. cbn [List.filter].
  destruct (outcomeOf policyChecks ruleTable result) eqn:Hout;
    cbn [isSkipped negb].
  - apply IH.
  - by rewrite forResults_cons, Hout.
  - rewrite forResults_cons, Hout. apply IH.
Qed.

Lemma observe_titles (results : list Node) (tick : nat) :
  map policy.Title (observe w s policyChecks target ruleTable results tick)
  = map (fun r => SelectAttr r "idref")
        (List.filter (fun r => isObserved (outcomeOf policyChecks ruleTable r))
                     results).
Proof.
  revert tick. induction results as [|result rest IH]; intros tick;
    [reflexivity | ].
  simpl. destruct (outcomeOf policyChecks ruleTable result); simpl;
    by rewrite ?IH.
Qed.

Lemma observe_clock (results : list Node) (tick k : nat)
    (o : policy.ObservationByCheck) :
  observe w s policyChecks target ruleTable results tick !! k = Some o ->
  policy.Collected o = time_Now w (tick + 2 * k)
  /\ map policy.EvaluatedOn (policy.Subjects o)
     = [time_Now w (tick + 2 * k + 1)].
Proof.
  revert tick k. induction results as [|result rest IH]; intros tick k;
    [discriminate | ].
  simpl. destruct (outcomeOf policyChecks ruleTable result); try apply IH.
  destruct k as [|k]; simpl.
  - intros [= <-]. simpl. rewrite !Nat.add_0_r, Nat.add_1_r. done.
  - intros Hk. destruct (IH _ _ Hk) as [-> ->].
    split; [f_equal; lia | do 2 f_equal; lia].
Qed.
End Loop.

(** ** GetResults on a document *)

Lemma outcomeOf_Aborted (policyChecks : checks) (ruleTable : gmap string Node)
    (r : Node) (err : error) :
  outcomeOf policyChecks ruleTable r = Aborted err
  <-> aborts policyChecks ruleTable r err.
Proof.
  unfold outcomeOf, aborts. split.
  - destruct (ruleTable !! _) as [rule|]; [ | discriminate].
    destruct (firstOvalRef _) as [ovalRefEl|] eqn:Href; [ | discriminate].
    destruct (parseCheck ovalRefEl) as [c [e|]] eqn:Hparse.
    + intros [= ->]. exists rule, ovalRefEl. rewrite Hparse.
      split; [reflexivity | ]. split; [exact Href | by left].
    + destruct (Has policyChecks c) eqn:Hhas; [ | discriminate].
      destruct (mapResultStatus r) as [m [e|]] eqn:Hmap; [ | discriminate].
      intros [= ->]. exists rule, ovalRefEl. rewrite Hparse.
      split; [reflexivity | ]. split; [exact Href | by right].
  - intros (rule & ovalRefEl & -> & -> & H).
    destruct (parseCheck ovalRefEl) as [c [e|]]; simpl in H.
    + destruct H as [[= ->] | [? _]]; [reflexivity | discriminate].
    + destruct H as [? | (_ & -> & Hmap)]; [discriminate | ].
      destruct (mapResultStatus r) as [m [e|]]; simpl in Hmap; congruence.
Qed.

Lemma isAborted_false (policyChecks : checks) (ruleTable : gmap string Node)
    (r : Node) :
  isAborted (outcomeOf policyChecks ruleTable r) = false
  <-> forall err, ~ aborts policyChecks ruleTable r err.
Proof.
  split.
  - intros Hno err Habort%outcomeOf_Aborted. by rewrite Habort in Hno.
  - intros Hno.
    destruct (outcomeOf policyChecks ruleTable r) as [|e|] eqn:Hout;
      try reflexivity.
    apply outcomeOf_Aborted in Hout. by destruct (Hno e).
Qed.

(** X5. On a document that parses and has a target, [GetResults] returns
    an error exactly when some rule-result aborts, and the error is that
    of the first one in document order: the rule-results after it play no
    part. *)
Theorem GetResults_error_is_first_abort (w : World) (s : PluginServer)
    (oscalPolicy : policy.Policy) (xmlnode targetEl : Node) (err : error) :
  opened w s xmlnode ->
  SelectElement xmlnode "//target" = Some targetEl ->
  let policyChecks := LoadPolicy newChecks oscalPolicy in
  let ruleTable := xccdf_NewRuleHashTable w xmlnode in
  (GetResults w s oscalPolicy).2 = Some err
  <-> exists pre r post,
        SelectElements xmlnode "//rule-result" = (pre ++ r :: post)%list
        /\ Forall (fun x => forall e, ~ aborts policyChecks ruleTable x e) pre
        /\ aborts policyChecks ruleTable r err.
Proof.
  intros Hopen Htarget policyChecks ruleTable.
  rewrite (GetResults_opened _ _ _ _ Hopen), Htarget, forResults_error_iff.
  fold policyChecks ruleTable.
  split; intros (pre & r & post & Heq & Hpre & Hr); exists pre, r, post;
    (split; [exact Heq | ]); split.
  - eapply Forall_impl; [exact Hpre | ]. intros x. apply isAborted_false.
  - by apply outcomeOf_Aborted.
  - eapply Forall_impl; [exact Hpre | ]. intros x. apply isAborted_false.
  - by apply outcomeOf_Aborted.
Qed.

Lemma GetResults_success (w : World) (s : PluginServer)
    (oscalPolicy : policy.Policy) (xmlnode targetEl : Node)
    (pvp : policy.PVPResult) :
  opened w s xmlnode ->
  SelectElement xmlnode "//target" = Some targetEl ->
  GetResults w s oscalPolicy = (pvp, None) ->
  policy.ObservationsByCheck pvp
  = observe w s (LoadPolicy newChecks oscalPolicy) (InnerText targetEl)
            (xccdf_NewRuleHashTable w xmlnode)
            (SelectElements xmlnode "//rule-result") 0.
Proof.
  intros Hopen Htarget. rewrite (GetResults_opened _ _ _ _ Hopen), Htarget.
  intros Hloop. by rewrite (forResults_success _ _ _ _ _ _ _ _ _ Hloop).
Qed.

Lemma observe_checks (w : World) (s : PluginServer) (policyChecks : checks)
    (target : string) (ruleTable : gmap string Node) (results : list Node)
    (tick : nat) :
  Forall2 (fun o r =>
             policy.Title o = SelectAttr r "idref"
             /\ exists mappedResult,
                  outcomeOf policyChecks ruleTable r
                  = Observed (policy.CheckID o) mappedResult)
          (observe w s policyChecks target ruleTable results tick)
          (List.filter
             (fun r => isObserved (outcomeOf policyChecks ruleTable r))
                       results).
Proof.
  revert tick. induction results as [|result rest IH]; intros tick;
    [constructor | ].
  simpl. destruct (outcomeOf policyChecks ruleTable result) eqn:Hout; simpl;
    try apply IH.
  constructor; [ | apply IH]. split; [reflexivity | ]. by eexists.
Qed.

(** X6. When [GetResults] succeeds on a document that parses and has a
    target, its observations are, in document order, one for each
    rule-result that is neither passed over nor aborting: the title is
    the [idref] of the rule-result and the check ID is the normalized
    identifier of the relevant check of its rule. *)
Theorem GetResults_observations_in_document_order (w : World)
    (s : PluginServer) (oscalPolicy : policy.Policy)
    (xmlnode targetEl : Node) (pvp : policy.PVPResult) :
  opened w s xmlnode ->
  SelectElement xmlnode "//target" = Some targetEl ->
  GetResults w s oscalPolicy = (pvp, None) ->
  let policyChecks := LoadPolicy newChecks oscalPolicy in
  let ruleTable := xccdf_NewRuleHashTable w xmlnode in
  Forall2 (fun o r =>
             policy.Title o = SelectAttr r "idref"
             /\ exists mappedResult,
                  outcomeOf policyChecks ruleTable r
                  = Observed (policy.CheckID o) mappedResult)
          (policy.ObservationsByCheck pvp)
          (List.filter
             (fun r => isObserved (outcomeOf policyChecks ruleTable r))
                       (SelectElements xmlnode "//rule-result")).
Proof.
  intros Hopen Htarget Hok.
  rewrite (GetResults_success _ _ _ _ _ _ Hopen Htarget Hok).
  apply observe_checks.
Qed.

Lemma mapResultStatus_ok_token (result : Node) (mappedResult : policy.Result) :
  mapResultStatus result = (mappedResult, None) ->
  In (resultText result) (tokensOf mappedResult).
Proof.
  unfold mapResultStatus, resultText.
  destruct (SelectElement result "result") as [resultEl|]; [ | discriminate].
  cbv zeta.
  remember (InnerText resultEl) as token eqn:Htoken. clear Htoken.
  destruct (String.eqb_spec token "pass") as [-> | _];
    [intros [= <-]; simpl; auto | ].
  destruct (String.eqb_spec token "fixed") as [-> | _];
    [intros [= <-]; simpl; auto | ].
  simpl.
  destruct (String.eqb_spec token "fail") as [-> | _];
    [intros [= <-]; simpl; auto | ].
  destruct (String.eqb_spec token "notselected") as [-> | _];
    [intros [= <-]; simpl; auto | ].
  destruct (String.eqb_spec token "notapplicable") as [-> | _];
    [intros [= <-]; simpl; auto | ].
  simpl.
  destruct (String.eqb_spec token "error") as [-> | _];
    [intros [= <-]; simpl; auto | ].
  destruct (String.eqb_spec token "unknown") as [-> | _];
    [intros [= <-]; simpl; auto 10 | ].
  discriminate.
Qed.

Lemma observe_well_formed (w : World) (s : PluginServer)
    (policyChecks : checks) (target : string) (ruleTable : gmap string Node)
    (results : list Node) (tick : nat) :
  Forall (fun o =>
            observationFor target (config.ARF (config.Files (Config s))) o
            /\ Has policyChecks (policy.CheckID o) = true)
         (observe w s policyChecks target ruleTable results tick).
Proof.
  revert tick. induction results as [|result rest IH]; intros tick;
    [constructor | ].
  simpl.
  destruct (outcomeOf policyChecks ruleTable result) as [| |c m] eqn:Hout;
    try apply IH.
  constructor; [ | apply IH].
  unfold outcomeOf in Hout.
  destruct (ruleTable !! _) as [rule|]; [ | discriminate].
  destruct (firstOvalRef _) as [ovalRefEl|]; [ | discriminate].
  destruct (parseCheck ovalRefEl) as [c' [e|]]; [discriminate | ].
  destruct (Has policyChecks c') eqn:Hhas; [ | discriminate].
  destruct (mapResultStatus result) as [m' [e|]] eqn:Hmap; [discriminate | ].
  injection Hout as -> ->.
  split; [ | exact Hhas].
  split; [reflexivity | ]. split; [reflexivity | ].
  eexists _, (resultText result). repeat split.
  by apply mapResultStatus_ok_token.
Qed.

(** X7. Every observation of a successful [GetResults] has a check ID
    that the policy holds, the method AUTOMATED, one evidence link to the
    results file, and one subject: the host of the target element, with
    a result that is Pass, Fail or Error -- never Invalid -- and a reason
    that quotes an outcome token of that result. *)
Theorem GetResults_observations_well_formed (w : World) (s : PluginServer)
    (oscalPolicy : policy.Policy) (xmlnode targetEl : Node)
    (pvp : policy.PVPResult) :
  opened w s xmlnode ->
  SelectElement xmlnode "//target" = Some targetEl ->
  GetResults w s oscalPolicy = (pvp, None) ->
  Forall (fun o =>
            observationFor (InnerText targetEl)
                           (config.ARF (config.Files (Config s))) o
            /\ Has (LoadPolicy newChecks oscalPolicy) (policy.CheckID o) = true)
         (policy.ObservationsByCheck pvp).
Proof.
  intros Hopen Htarget Hok.
  rewrite (GetResults_success _ _ _ _ _ _ Hopen Htarget Hok).
  apply observe_well_formed.
Qed.

(** X8. In a successful result the observation at position [k] was
    collected at the call of [time.Now] that 2k calls precede, and its
    subject was evaluated at the next call: the clock is read twice for
    each observation and not at all for the other rule-results. *)
Theorem GetResults_clock (w : World) (s : PluginServer)
    (oscalPolicy : policy.Policy) (xmlnode targetEl : Node)
    (pvp : policy.PVPResult) (k : nat) (o : policy.ObservationByCheck) :
  opened w s xmlnode ->
  SelectElement xmlnode "//target" = Some targetEl ->
  GetResults w s oscalPolicy = (pvp, None) ->
  policy.ObservationsByCheck pvp !! k = Some o ->
  policy.Collected o = time_Now w (2 * k)
  /\ map policy.EvaluatedOn (policy.Subjects o) = [time_Now w (2 * k + 1)].
Proof.
  intros Hopen Htarget Hok.
  rewrite (GetResults_success _ _ _ _ _ _ Hopen Htarget Hok).
  apply observe_clock.
Qed.

Lemma GetResults_error_is_first_abort_witness :
  (GetResults (sample.world sample.twoAbortsDocument) sample.plugin
              (sample.policyOf ["X"])).2
  = Some (fmt_Errorf "couldn't match %s" [arg_string "bogus"]).
Proof.
  refine (proj2 (GetResults_error_is_first_abort
                   (sample.world sample.twoAbortsDocument) sample.plugin
                   (sample.policyOf ["X"]) sample.twoAbortsDocument
                   (sample.element "" "target" [] [sample.textNode "host1"])
                   _ (opened_sample _) eq_refl) _).
  exists [], (sample.ruleResult "rule1" "bogus"),
         [sample.ruleResult "rule2" "fail"].
  split; [reflexivity | ]. split; [constructor | ].
  exists (sample.rule "rule1"
            [sample.checkOf ovalCheckType "oval:ssg-X:def:1"]),
         (sample.contentRef "oval:ssg-X:def:1").
  split; [reflexivity | ]. split; [reflexivity | ].
  right. repeat split.
Defined.

Lemma mixedDocument_ok :
  GetResults (sample.world sample.mixedDocument) sample.plugin
             sample.mixedPolicy
  = ((GetResults (sample.world sample.mixedDocument) sample.plugin
                 sample.mixedPolicy).1, None).
Proof. reflexivity. Defined.

Lemma GetResults_observations_in_document_order_witness :
  map policy.Title
      (policy.ObservationsByCheck
         (GetResults (sample.world sample.mixedDocument) sample.plugin
                     sample.mixedPolicy).1)
  = ["rule1"; "rule2"]
  /\ Forall2 (fun o r =>
                policy.Title o = SelectAttr r "idref"
                /\ exists mappedResult,
                     outcomeOf (LoadPolicy newChecks sample.mixedPolicy)
                               (NewRuleHashTable sample.mixedDocument) r
                     = Observed (policy.CheckID o) mappedResult)
             (policy.ObservationsByCheck
                (GetResults (sample.world sample.mixedDocument) sample.plugin
                            sample.mixedPolicy).1)
             [sample.ruleResult "rule1" "pass";
              sample.ruleResult "rule2" "fail"].
Proof.
  split; [reflexivity | ].
  exact (GetResults_observations_in_document_order
           (sample.world sample.mixedDocument) sample.plugin
           sample.mixedPolicy sample.mixedDocument
           (sample.element "" "target" [] [sample.textNode "host1"]) _
           (opened_sample _) eq_refl mixedDocument_ok).
Defined.

Lemma GetResults_observations_well_formed_witness :
  Forall (fun o =>
            observationFor "host1" "/tmp/arf.xml" o
            /\ Has (LoadPolicy newChecks sample.mixedPolicy)
                   (policy.CheckID o) = true)
         (policy.ObservationsByCheck
            (GetResults (sample.world sample.mixedDocument) sample.plugin
                        sample.mixedPolicy).1).
Proof.
  exact (GetResults_observations_well_formed
           (sample.world sample.mixedDocument) sample.plugin
           sample.mixedPolicy sample.mixedDocument
           (sample.element "" "target" [] [sample.textNode "host1"]) _
           (opened_sample _) eq_refl mixedDocument_ok).
Defined.

Lemma GetResults_clock_witness :
  exists o,
    policy.ObservationsByCheck
      (GetResults (sample.world sample.mixedDocument) sample.plugin
                  sample.mixedPolicy).1 !! 1 = Some o
    /\ policy.Title o = "rule2"
    /\ policy.Collected o = 2%Z
    /\ map policy.EvaluatedOn (policy.Subjects o) = [3%Z].
Proof.
  eexists. split; [reflexivity | ]. split; [reflexivity | ].
  exact (GetResults_clock
           (sample.world sample.mixedDocument) sample.plugin
           sample.mixedPolicy sample.mixedDocument
           (sample.element "" "target" [] [sample.textNode "host1"]) _ 1 _
           (opened_sample _) eq_refl mixedDocument_ok eq_refl).
Defined.

(** X9. A rule-result is passed over exactly when its rule is not in the
    index, or the rule has no relevant check (no check of the OVAL system,
    or a first one without content reference), or the identifier of the
    relevant check normalizes to a name outside the policy.  Its outcome
    token is not looked at, and leaving such rule-results out of the loop
    changes neither the observations, nor their timestamps, nor the
    error. *)
Theorem forResults_without_skipped (w : World) (s : PluginServer)
    (policyChecks : checks) (target : string) (ruleTable : gmap string Node)
    (results : list Node) (pvpResults : policy.PVPResult) (tick : nat) :
  (forall r,
     isSkipped (outcomeOf policyChecks ruleTable r) = true
     <-> ruleTable !! SelectAttr r "idref" = None
         \/ (exists rule,
               ruleTable !! SelectAttr r "idref" = Some rule
               /\ firstOvalRef (SelectElements rule "//xccdf-1.2:check")
                  = None)
         \/ (exists rule ovalRefEl ovalCheck,
               ruleTable !! SelectAttr r "idref" = Some rule
               /\ firstOvalRef (SelectElements rule "//xccdf-1.2:check")
                  = Some ovalRefEl
               /\ parseCheck ovalRefEl = (ovalCheck, None)
               /\ Has policyChecks ovalCheck = false))
  /\ forResults w s policyChecks target ruleTable results pvpResults tick
     = forResults w s policyChecks target ruleTable
         (List.filter
            (fun r => negb (isSkipped (outcomeOf policyChecks ruleTable r)))
            results)
         pvpResults tick.
Proof.
  split; [ | apply forResults_filter_skipped].
  intros r. unfold outcomeOf.
  destruct (ruleTable !! SelectAttr r "idref") as [rule|] eqn:Hrule.
  2:{ split; [by left | reflexivity]. }
  destruct (firstOvalRef (SelectElements rule "//xccdf-1.2:check"))
    as [ovalRefEl|] eqn:Href.
  2:{ split; [ | reflexivity]. intros _. right. left. by exists rule. }
  destruct (parseCheck ovalRefEl) as [c [e|]] eqn:Hparse.
  { cbn [isSkipped]. split; [discriminate | ].
    intros [? | [(rule' & [= <-] & ?)
                | (rule' & ref & c' & [= <-] & ? & ? & _)]];
      congruence. }
  destruct (Has policyChecks c) eqn:Hhas.
  - destruct (mapResultStatus r) as [m [e|]]; cbn [isSkipped];
      (split; [discriminate | ]);
      intros [? | [(rule' & [= <-] & ?)
                  | (rule' & ref & c' & [= <-] & ? & ? & ?)]];
      congruence.
  - cbn [isSkipped]. split; [ | reflexivity]. intros _. right. right.
    by exists rule, ovalRefEl, c.
Qed.

(** ** Validate *)

(** X10. [Validate] accepts the options exactly when the workspace and
    the profile are set and the user configuration root, when given, is
    not reported missing by [os.Stat]: a root that cannot be inspected
    for another reason is accepted.  The workspace is checked first, then
    the profile, and the file system is consulted only when both are
    set. *)
Theorem Validate_accepts_iff (h : complytime.Host)
    (p : complytime.PluginOptions) :
  (complytime.Validate h p = None
   <-> complytime.Workspace p <> ""
       /\ complytime.Profile p <> ""
       /\ (complytime.UserConfigRoot p = ""
           \/ forall err,
                complytime.os_Stat h (complytime.UserConfigRoot p) = Some err ->
                complytime.os_IsNotExist (complytime.files h) err = false))
  /\ (complytime.Workspace p = "" ->
      complytime.Validate h p = Some (errors_New "workspace must be set"))
  /\ (complytime.Workspace p <> "" -> complytime.Profile p = "" ->
      complytime.Validate h p = Some (errors_New "profile must be set"))
  /\ (forall err,
        complytime.Workspace p <> "" -> complytime.Profile p <> "" ->
        complytime.UserConfigRoot p <> "" ->
        complytime.os_Stat h (complytime.UserConfigRoot p) = Some err ->
        complytime.os_IsNotExist (complytime.files h) err = true ->
        complytime.Validate h p
        = Some (errors_New "user config root does not exist")).
Proof.
  unfold complytime.Validate.
  destruct (String.eqb_spec (complytime.Workspace p) "") as [Hw | Hw].
  { split; [split; [discriminate | tauto] | ].
    split; [reflexivity | ]. split; [tauto | intros; tauto]. }
  destruct (String.eqb_spec (complytime.Profile p) "") as [Hp | Hp].
  { split; [split; [discriminate | tauto] | ].
    split; [tauto | ]. split; [reflexivity | intros; tauto]. }
  destruct (String.eqb_spec (complytime.UserConfigRoot p) "") as [Hr | Hr];
    simpl.
  { split; [split; [auto | reflexivity] | ].
    split; [tauto | ]. split; [tauto | intros; tauto]. }
  destruct (complytime.os_Stat h (complytime.UserConfigRoot p)) as [e|].
  - destruct (complytime.os_IsNotExist (complytime.files h) e) eqn:Hne.
    + split.
      * split; [discriminate | ]. intros (_ & _ & [? | Hall]); [done | ].
        specialize (Hall e eq_refl). congruence.
      * split; [tauto | ]. split; [tauto | reflexivity].
    + split.
      * split; [ | reflexivity]. intros _. repeat split; try done.
        right. by intros err [= <-].
      * split; [tauto | ]. split; [tauto | ].
        intros err _ _ _ [= <-] ?. congruence.
  - split.
    + split; [ | reflexivity]. intros _. repeat split; try done.
      right. intros err. discriminate.
    + split; [tauto | ]. split; [tauto | ]. intros err _ _ _. discriminate.
Qed.

Lemma Validate_set (h : complytime.Host) (p : complytime.PluginOptions) :
  complytime.Validate h p = None ->
  complytime.Workspace p <> "" /\ complytime.Profile p <> "".
Proof.
  unfold complytime.Validate.
  destruct (String.eqb_spec (complytime.Workspace p) ""); [discriminate | ].
  destruct (String.eqb_spec (complytime.Profile p) ""); [discriminate | ].
  done.
Qed.

(** ** ToMap and the manifest *)

Lemma ToMap_manifest (w : complytime.World) (p : complytime.PluginOptions)
    (pluginId : string) (options : list complytime.ConfigurationOption) :
  manifestRead w p pluginId options ->
  complytime.ToMap w p pluginId
  = complytime.forConfiguration (manifestPath w p pluginId) options
                                (globalSelections p) [].
Proof.
  intros [Hroot (configFile & Hopen & Hdecode)].
  unfold complytime.ToMap, manifestPath in *. cbv zeta.
  apply String.eqb_neq in Hroot. rewrite Hroot. cbn [negb].
  by rewrite Hopen, Hdecode.
Qed.

Lemma forConfiguration_blocking (configPath : string)
    (o : complytime.ConfigurationOption)
    (rest : list complytime.ConfigurationOption)
    (selections : gmap string string) (log : list complytime.LogLine) :
  blocking o = true ->
  complytime.forConfiguration configPath (o :: rest) selections log
  = (selections, Some (errMissingDefault o configPath), log).
Proof.
  unfold blocking, reserved. intros Hb. simpl.
  destruct (_ || _); [discriminate | ].
  destruct (complytime.Default o); [discriminate | ].
  simpl in Hb. by rewrite Hb.
Qed.

Lemma forConfiguration_prefix (configPath : string)
    (pre : list complytime.ConfigurationOption)
    (selections : gmap string string) (log : list complytime.LogLine) :
  Forall (fun o => blocking o = false) pre ->
  exists log',
    forall rest,
      complytime.forConfiguration configPath (pre ++ rest) selections log
      = complytime.forConfiguration configPath rest
                                    (foldl enter selections pre) log'.
Proof.
  intros Hpre. revert selections log.
  induction Hpre as [|o pre Ho _ IH]; intros selections log.
  - by exists log.
  - assert (exists log1, forall rest,
               complytime.forConfiguration configPath (o :: rest) selections log
               = complytime.forConfiguration configPath rest
                                             (enter selections o) log1)
      as [log2 Hstep].
    { unfold blocking, enter, entered, reserved in *. simpl.
      destruct (_ || _); [by exists log | ].
      destruct (complytime.Default o); [by exists log | ].
      simpl in Ho. rewrite Ho. by eexists. }
    destruct (IH (enter selections o) log2) as [log' Hrest].
    exists log'. intros rest. simpl app. rewrite Hstep. apply Hrest.
Qed.

Lemma enter_dom (options : list complytime.ConfigurationOption)
    (selections : gmap string string) :
  dom (foldl enter selections options)
  = dom selections
    ∪ list_to_set (List.filter (fun n => negb (reserved n))
                               (map complytime.Name options)).
Proof.
  revert selections.
  induction options as [|o options IH]; intros selections; simpl.
  - set_solver.
  - rewrite IH. unfold enter.
    destruct (reserved (complytime.Name o)); simpl; [reflexivity | ].
    rewrite dom_insert_L. set_solver.
Qed.

Lemma enter_other (options : list complytime.ConfigurationOption)
    (selections : gmap string string) (key : string) :
  Forall (fun o => complytime.Name o <> key) options ->
  foldl enter selections options !! key = selections !! key.
Proof.
  intros Hne. revert selections.
  induction Hne as [|o options Ho _ IH]; intros selections; simpl;
    [reflexivity | ].
  rewrite IH. unfold enter.
  destruct (reserved (complytime.Name o)); [reflexivity | ].
  by apply lookup_insert_ne.
Qed.

Lemma reserved_true (name : string) :
  reserved name = true <-> name = "workspace" \/ name = "profile".
Proof.
  unfold reserved. rewrite orb_true_iff, !String.eqb_eq. tauto.
Qed.

Lemma blocking_split (options : list complytime.ConfigurationOption) :
  Forall (fun o => blocking o = false) options
  \/ exists pre o post,
       options = (pre ++ o :: post)%list
       /\ Forall (fun o => blocking o = false) pre
       /\ blocking o = true.
Proof.
  induction options as [|o options IH]; [left; constructor | ].
  destruct (blocking o) eqn:Ho.
  - right. exists [], o, options. repeat split; [constructor | done].
  - destruct IH as [Hall | (pre & o' & post & -> & Hpre & Ho')].
    + left. by constructor.
    + right. exists (o :: pre), o', post. repeat split; [ | done].
      by constructor.
Qed.

(** X11. When [ToMap] reads a manifest, it returns an error exactly when
    some option that is not named workspace or profile is required and
    has no default.  The error names the first such option and the
    manifest path, and the map returned with it is not empty: it holds
    the global options and what the options before the blocking one have
    entered. *)
Theorem ToMap_error_at_first_blocking (w : complytime.World)
    (p : complytime.PluginOptions) (pluginId : string)
    (options : list complytime.ConfigurationOption) :
  manifestRead w p pluginId options ->
  ((complytime.ToMap w p pluginId).1.2 = None
   <-> Forall (fun o => blocking o = false) options)
  /\ (forall pre o post,
        options = (pre ++ o :: post)%list ->
        Forall (fun o => blocking o = false) pre ->
        blocking o = true ->
        (complytime.ToMap w p pluginId).1
        = (foldl enter (globalSelections p) pre,
           Some (errMissingDefault o (manifestPath w p pluginId)))).
Proof.
  intros Hread. rewrite (ToMap_manifest _ _ _ _ Hread).
  assert (Hat : forall pre o post,
             options = (pre ++ o :: post)%list ->
             Forall (fun o => blocking o = false) pre ->
             blocking o = true ->
             (complytime.forConfiguration (manifestPath w p pluginId) options
                                          (globalSelections p) []).1
             = (foldl enter (globalSelections p) pre,
                Some (errMissingDefault o (manifestPath w p pluginId)))).
  { intros pre o post -> Hpre Ho.
    destruct (forConfiguration_prefix (manifestPath w p pluginId) pre
                                      (globalSelections p) [] Hpre)
      as [log' ->].
    by rewrite forConfiguration_blocking. }
  split; [ | exact Hat].
  split.
  - intros Hok.
    destruct (blocking_split options)
      as [Hall | (pre & o & post & Heq & Hpre & Ho)]; [exact Hall | exfalso].
    rewrite (surjective_pairing (complytime.forConfiguration _ _ _ _).1) in Hok.
    by rewrite (Hat pre o post Heq Hpre Ho) in Hok.
  - intros Hall.
    destruct (forConfiguration_prefix (manifestPath w p pluginId) options
                                      (globalSelections p) [] Hall)
      as [log' Hrun].
    specialize (Hrun []). rewrite app_nil_r in Hrun. by rewrite Hrun.
Qed.

Lemma ToMap_success_map (w : complytime.World)
    (p : complytime.PluginOptions) (pluginId : string)
    (options : list complytime.ConfigurationOption) :
  manifestRead w p pluginId options ->
  Forall (fun o => blocking o = false) options ->
  (complytime.ToMap w p pluginId).1
  = (foldl enter (globalSelections p) options, None).
Proof.
  intros Hread Hall. rewrite (ToMap_manifest _ _ _ _ Hread).
  destruct (forConfiguration_prefix (manifestPath w p pluginId) options
                                    (globalSelections p) [] Hall)
    as [log' Hrun].
  specialize (Hrun []). rewrite app_nil_r in Hrun. by rewrite Hrun.
Qed.

(** X12. When [ToMap] reads a manifest and no option blocks, the keys of
    the returned map are workspace, profile and the names of the
    manifest's options, and nothing else. *)
Theorem ToMap_keys (w : complytime.World) (p : complytime.PluginOptions)
    (pluginId : string) (options : list complytime.ConfigurationOption) :
  manifestRead w p pluginId options ->
  Forall (fun o => blocking o = false) options ->
  (complytime.ToMap w p pluginId).1.2 = None
  /\ dom (complytime.ToMap w p pluginId).1.1
     = {["workspace"; "profile"]} ∪ list_to_set (map complytime.Name options).
Proof.
  intros Hread Hall. rewrite (ToMap_success_map _ _ _ _ Hread Hall).
  split; [reflexivity | ]. simpl. rewrite enter_dom.
  unfold globalSelections. rewrite !dom_insert_L, dom_empty_L.
  apply set_eq. intros k.
  rewrite !elem_of_union, !elem_of_list_to_set, !list_elem_of_In.
  rewrite filter_In, negb_true_iff.
  rewrite !elem_of_singleton, elem_of_empty.
  destruct (reserved k) eqn:Hk.
  - apply reserved_true in Hk. intuition congruence.
  - intuition congruence.
Qed.

(** X13. When [ToMap] reads a manifest and no option blocks, an option
    that is not named workspace or profile enters its default, or the
    empty string when it is optional and has none, and among several
    options of one name the last decides. *)
Theorem ToMap_last_option_decides (w : complytime.World)
    (p : complytime.PluginOptions) (pluginId : string)
    (pre post : list complytime.ConfigurationOption)
    (o : complytime.ConfigurationOption) :
  manifestRead w p pluginId (pre ++ o :: post) ->
  Forall (fun o => blocking o = false) (pre ++ o :: post) ->
  reserved (complytime.Name o) = false ->
  Forall (fun o' => complytime.Name o' <> complytime.Name o) post ->
  (complytime.ToMap w p pluginId).1.1 !! complytime.Name o
  = Some (default "" (complytime.Default o)).
Proof.
  intros Hread Hall Hname Hpost.
  rewrite (ToMap_success_map _ _ _ _ Hread Hall). simpl.
  rewrite foldl_app. simpl. rewrite (enter_other _ _ _ Hpost).
  unfold enter at 1. rewrite Hname. apply lookup_insert_eq.
Qed.

(** X14. Without a manifest [ToMap] returns the two global options and
    nothing else.  That is no error when no configuration root is given
    (the file system is not consulted) and when the manifest file does
    not exist; when the file cannot be opened for another reason or does
    not decode, the same map comes with the wrapped error. *)
Theorem ToMap_without_manifest (w : complytime.World)
    (p : complytime.PluginOptions) (pluginId : string) :
  (complytime.UserConfigRoot p = "" ->
   complytime.ToMap w p pluginId = (globalSelections p, None, []))
  /\ (forall err,
        complytime.UserConfigRoot p <> "" ->
        complytime.os_Open w (manifestPath w p pluginId) = inr err ->
        (complytime.ToMap w p pluginId).1
        = (globalSelections p,
           if complytime.os_IsNotExist w err then None
           else Some (fmt_Errorf "failed to open plugin config file: %w"
                                 [arg_error err])))
  /\ (forall configFile err,
        complytime.UserConfigRoot p <> "" ->
        complytime.os_Open w (manifestPath w p pluginId) = inl configFile ->
        complytime.json_Decode w configFile = inr err ->
        complytime.ToMap w p pluginId
        = (globalSelections p,
           Some (fmt_Errorf "failed to parse plugin config file: %w"
                            [arg_error err]),
           [])).
Proof.
  unfold complytime.ToMap, manifestPath, globalSelections. cbv zeta.
  split; [by intros -> | ]. split.
  - intros err Hroot%String.eqb_neq ->. rewrite Hroot. cbn [negb].
    by destruct (complytime.os_IsNotExist w err).
  - intros configFile err Hroot%String.eqb_neq -> ->. by rewrite Hroot.
Qed.

(** ** Plugins *)

Lemma ToMap_global (w : complytime.World) (p : complytime.PluginOptions)
    (pluginId : string) :
  (complytime.ToMap w p pluginId).1.1 !! "workspace"
    = Some (complytime.Workspace p)
  /\ (complytime.ToMap w p pluginId).1.1 !! "profile"
     = Some (complytime.Profile p).
Proof.
  assert (Hbase : globalSelections p !! "workspace"
                    = Some (complytime.Workspace p)
                  /\ globalSelections p !! "profile"
                     = Some (complytime.Profile p)).
  { unfold globalSelections. split.
    - rewrite lookup_insert_ne by discriminate. apply lookup_insert_eq.
    - apply lookup_insert_eq. }
  unfold complytime.ToMap. cbv zeta. fold (globalSelections p).
  destruct (negb _); [ | exact Hbase].
  destruct (complytime.os_Open w _) as [configFile | err].
  - destruct (complytime.json_Decode w configFile) as [m | err];
      [ | exact Hbase].
    by rewrite !forConfiguration_reserved by auto.
  - by destruct (complytime.os_IsNotExist w err).
Qed.

Section Manifests.
Variables (w : complytime.World) (p : complytime.PluginOptions).

Lemma forManifests_cons (pluginId : string) (rest : list string)
    (pluginSelectionsMap : gmap string (gmap string string))
    (log : list complytime.LogLine) :
  complytime.forManifests w p (pluginId :: rest) pluginSelectionsMap log
  = match (complytime.ToMap w p pluginId).1.2 with
    | Some err =>
        (pluginSelectionsMap, Some err,
         (log ++ (complytime.ToMap w p pluginId).2)%list)
    | None =>
        complytime.forManifests w p rest
          (<[pluginId := (complytime.ToMap w p pluginId).1.1]>
             pluginSelectionsMap)
          (log ++ (complytime.ToMap w p pluginId).2)%list
    end.
Proof.
  simpl. by destruct (complytime.ToMap w p pluginId) as [[m [e|]] lines].
Qed.

(** The loop over the manifests ends without error exactly when [ToMap]
    does for every plugin it visits. *)
Lemma forManifests_ok_iff (pluginIds : list string)
    (pluginSelectionsMap : gmap string (gmap string string))
    (log : list complytime.LogLine) :
  (complytime.forManifests w p pluginIds pluginSelectionsMap log).1.2 = None
  <-> Forall (fun id => (complytime.ToMap w p id).1.2 = None) pluginIds.
Proof.
  revert pluginSelectionsMap log.
  induction pluginIds as [|id ids IH]; intros pluginSelectionsMap log.
  - split; [constructor | reflexivity].
  - rewrite forManifests_cons, Forall_cons.
    destruct ((complytime.ToMap w p id).1.2) as [e|] eqn:Hid.
    + split; [discriminate | intros [? _]; discriminate].
    + rewrite IH. tauto.
Qed.

(** Without error, the loop has entered the map of [ToMap] for every
    plugin it visited and left the other entries alone. *)
Lemma forManifests_lookup (pluginIds : list string)
    (pluginSelectionsMap : gmap string (gmap string string))
    (log : list complytime.LogLine) (id : string) :
  (complytime.forManifests w p pluginIds pluginSelectionsMap log).1.2 = None ->
  (complytime.forManifests w p pluginIds pluginSelectionsMap log).1.1 !! id
  = if decide (id ∈ pluginIds) then Some (complytime.ToMap w p id).1.1
    else pluginSelectionsMap !! id.
Proof.
  revert pluginSelectionsMap log.
  induction pluginIds as [|x ids IH]; intros pluginSelectionsMap log.
  - intros _. simpl. destruct (decide (id ∈ [])) as [Hin | _]; [ | done].
    by apply elem_of_nil in Hin.
  - rewrite forManifests_cons.
    destruct ((complytime.ToMap w p x).1.2) as [e|] eqn:Hx; [discriminate | ].
    intros Hok. rewrite (IH _ _ Hok).
    destruct (decide (id ∈ ids)) as [Hin | Hin].
    + destruct (decide (id ∈ x :: ids)) as [_ | Hno]; [reflexivity | ].
      destruct Hno. by right.
    + destruct (decide (x = id)) as [-> | Hne].
      * rewrite lookup_insert_eq.
        destruct (decide (id ∈ id :: ids)) as [_ | Hno]; [reflexivity | ].
        destruct Hno. by left.
      * rewrite lookup_insert_ne by done.
        destruct (decide (id ∈ x :: ids)) as [Hc | _]; [ | done].
        apply elem_of_cons in Hc as [-> | ?]; done.
Qed.
End Manifests.

(** X15. [Plugins] hands back the cleanup function exactly when it has
    called [LaunchPolicyPlugins], that is when the requested plugins are
    found, the options (with the default configuration root filled in)
    validate, and [ToMap] succeeds for every plugin.  Without the cleanup
    function there is an error and no plugin map; without an error there
    is a cleanup function. *)
Theorem Plugins_cleanup_iff_launched {Provider : Type} (h : complytime.Host)
    (manager : complytime.PluginManager Provider)
    (inputs : complytime.InputContext) (selections : complytime.PluginOptions) :
  let r := complytime.Plugins h manager inputs selections in
  let p := complytime.withDefaultRoot h selections in
  (r.1.1.2 = Some complytime.manager_Clean
   <-> exists manifests,
         complytime.FindRequestedPlugins
           manager (complytime.RequestedProviders inputs) = inl manifests
         /\ complytime.Validate h p = None
         /\ Forall (fun id => (complytime.ToMap (complytime.files h) p id).1.2
                              = None)
                   (complytime.range_order h manifests))
  /\ (r.1.1.2 = None -> r.1.1.1 = None /\ r.1.2 <> None)
  /\ (r.1.2 = None -> r.1.1.2 = Some complytime.manager_Clean).
Proof.
  intros r p. subst r. unfold complytime.Plugins. fold p.
  destruct (complytime.FindRequestedPlugins manager _) as [manifests | e].
  2:{ simpl. split; [ | split; [done | discriminate]].
      split; [discriminate | intros (? & ? & _); discriminate]. }
  destruct (complytime.Validate h p) as [e|] eqn:Hvalid.
  { simpl. split; [ | split; [done | discriminate]].
    split; [discriminate | intros (? & _ & ? & _); discriminate]. }
  pose proof (forManifests_ok_iff (complytime.files h) p
                (complytime.range_order h manifests) ∅ []) as Hloop.
  destruct (complytime.forManifests _ _ _ _ _) as [[psm [e|]] log].
  - simpl in *. split; [ | split; [done | discriminate]].
    split; [discriminate | ].
    intros (m & [= <-] & _ & Hall). apply Hloop in Hall. discriminate.
  - simpl in Hloop.
    destruct (complytime.LaunchPolicyPlugins manager manifests _); simpl.
    + split; [ | split; [discriminate | done]].
      split; [ | done]. intros _. exists manifests. by rewrite <- Hloop.
    + split; [ | split; [discriminate | discriminate]].
      split; [ | done]. intros _. exists manifests. by rewrite <- Hloop.
Qed.

(** X16. When [Plugins] launches, every plugin it has visited is handed
    the map that [ToMap] returns for it -- so its workspace and profile
    are the global ones, and neither is empty, since the options have
    validated -- and a plugin it has not visited is handed the empty
    map.  What [Plugins] returns is then what the launch returns,
    together with the cleanup function. *)
Theorem Plugins_selections_handed_over {Provider : Type}
    (h : complytime.Host) (manager : complytime.PluginManager Provider)
    (inputs : complytime.InputContext) (selections : complytime.PluginOptions)
    (manifests : gmap string complytime.Manifest) :
  let p := complytime.withDefaultRoot h selections in
  complytime.FindRequestedPlugins
    manager (complytime.RequestedProviders inputs) = inl manifests ->
  complytime.Validate h p = None ->
  Forall (fun id => (complytime.ToMap (complytime.files h) p id).1.2 = None)
         (complytime.range_order h manifests) ->
  exists pluginSelectionsMap,
    (complytime.Plugins h manager inputs selections).1
    = launchResult
        (complytime.LaunchPolicyPlugins
           manager manifests
           (complytime.getSelections pluginSelectionsMap))
    /\ forall id,
         (In id (complytime.range_order h manifests) ->
          complytime.getSelections pluginSelectionsMap id
          = (complytime.ToMap (complytime.files h) p id).1.1
          /\ complytime.getSelections pluginSelectionsMap id !! "workspace"
             = Some (complytime.Workspace selections)
          /\ complytime.getSelections pluginSelectionsMap id !! "profile"
             = Some (complytime.Profile selections)
          /\ complytime.Workspace selections <> ""
          /\ complytime.Profile selections <> "")
         /\ (~ In id (complytime.range_order h manifests) ->
             complytime.getSelections pluginSelectionsMap id = ∅).
Proof.
  intros p Hfind Hvalid Hall.
  unfold complytime.Plugins. fold p. rewrite Hfind, Hvalid.
  pose proof (forManifests_ok_iff (complytime.files h) p
                (complytime.range_order h manifests) ∅ []) as Hloop.
  pose proof (forManifests_lookup (complytime.files h) p
                (complytime.range_order h manifests) ∅ []) as Hlook.
  destruct (complytime.forManifests _ _ _ _ _) as [[psm [e|]] log];
    simpl in Hloop, Hlook.
  { apply Hloop in Hall. discriminate. }
  exists psm. split.
  { by destruct (complytime.LaunchPolicyPlugins manager manifests _). }
  assert (Hsame : complytime.Workspace p = complytime.Workspace selections
                  /\ complytime.Profile p = complytime.Profile selections).
  { subst p. unfold complytime.withDefaultRoot.
    destruct (String.eqb _ _); [ | done].
    by destruct (complytime.os_Stat h _). }
  destruct Hsame as [Hw Hp].
  assert (Hset : complytime.Workspace p <> "" /\ complytime.Profile p <> "").
  { apply (Validate_set h p Hvalid). }
  intros id. unfold complytime.getSelections. rewrite (Hlook id eq_refl).
  split.
  - intros Hin%list_elem_of_In. destruct (decide (id ∈ _)); [ | done]. simpl.
    destruct (ToMap_global (complytime.files h) p id) as [Hws Hpr].
    rewrite Hws, Hpr, <- Hw, <- Hp. by destruct Hset.
  - intros Hin. rewrite <- list_elem_of_In in Hin.
    destruct (decide (id ∈ _)); [done | ].
    by rewrite lookup_empty.
Qed.

(** X17. With no configuration root given and no default configuration
    directory on the host, [Plugins] launches whenever the workspace and
    the profile are set and the requested plugins are found: no manifest
    is read, nothing is logged, and every plugin visited is handed
    exactly the two global options. *)
Theorem Plugins_without_config_root {Provider : Type} (h : complytime.Host)
    (manager : complytime.PluginManager Provider)
    (inputs : complytime.InputContext) (selections : complytime.PluginOptions)
    (manifests : gmap string complytime.Manifest) (err : error) :
  complytime.UserConfigRoot selections = "" ->
  complytime.os_Stat h (complytime.DefaultPluginConfigDir h) = Some err ->
  complytime.Workspace selections <> "" ->
  complytime.Profile selections <> "" ->
  complytime.FindRequestedPlugins
    manager (complytime.RequestedProviders inputs) = inl manifests ->
  exists pluginSelectionsMap,
    complytime.Plugins h manager inputs selections
    = (launchResult
         (complytime.LaunchPolicyPlugins
            manager manifests
            (complytime.getSelections pluginSelectionsMap)),
       [])
    /\ forall id,
         In id (complytime.range_order h manifests) ->
         complytime.getSelections pluginSelectionsMap id
         = globalSelections selections.
Proof.
  intros Hroot Hstat Hw%String.eqb_neq Hp%String.eqb_neq Hfind.
  assert (HtoMap : forall id,
             complytime.ToMap (complytime.files h) selections id
             = (globalSelections selections, None, [])).
  { intros id. unfold complytime.ToMap. by rewrite Hroot. }
  unfold complytime.Plugins, complytime.withDefaultRoot.
  rewrite Hfind, Hroot, Hstat. cbn [String.eqb].
  unfold complytime.Validate. rewrite Hw, Hp, Hroot. cbn [String.eqb negb andb].
  pose proof (forManifests_lookup (complytime.files h) selections
                (complytime.range_order h manifests) ∅ []) as Hlook.
  assert (Hrun : forall ids psm,
             exists psm',
               complytime.forManifests (complytime.files h) selections ids
                                       psm []
               = (psm', None, [])).
  { induction ids as [|x ids IH]; intros psm; [by exists psm | ].
    simpl. rewrite HtoMap. apply IH. }
  destruct (Hrun (complytime.range_order h manifests) ∅) as [psm' Hloop].
  rewrite Hloop in Hlook |- *. simpl in Hlook. exists psm'. split.
  { by destruct (complytime.LaunchPolicyPlugins manager manifests _). }
  intros id Hin%list_elem_of_In. unfold complytime.getSelections.
  rewrite (Hlook id eq_refl). destruct (decide (id ∈ _)); [ | done].
  by rewrite HtoMap.
Qed.

(** ** Runs of ToMap and Plugins *)

Lemma manifestRead_sample (options : list complytime.ConfigurationOption) :
  manifestRead (sample.manifestWorld options) sample.globalOptions "openscap"
               options.
Proof. split; [discriminate | ]. exists "". split; reflexivity. Defined.

Lemma ToMap_error_at_first_blocking_witness :
  (complytime.ToMap (sample.manifestWorld sample.blockedOptions)
                    sample.globalOptions "openscap").1
  = (foldl enter (globalSelections sample.globalOptions)
           [ complytime.mkConfigurationOption "datastream" "" false
                                              (Some "ds.xml");
             complytime.mkConfigurationOption "results" "" false None ],
     Some (fmt_Errorf "missing default value for required option %s in %s"
                      [arg_string "policy";
                       arg_string
                         "/etc/complytime/c2p-openscap-manifest.json"])).
Proof.
  refine (proj2 (ToMap_error_at_first_blocking
                   (sample.manifestWorld sample.blockedOptions)
                   sample.globalOptions "openscap" sample.blockedOptions
                   (manifestRead_sample _))
                [ complytime.mkConfigurationOption "datastream" "" false
                                                   (Some "ds.xml");
                  complytime.mkConfigurationOption "results" "" false None ]
                (complytime.mkConfigurationOption "policy" "" true None)
                [complytime.mkConfigurationOption "arf" "" false
                                                  (Some "arf.xml")]
                eq_refl _ eq_refl).
  repeat constructor.
Defined.

Lemma ToMap_keys_witness :
  (complytime.ToMap (sample.manifestWorld sample.repeatedOptions)
                    sample.globalOptions "openscap").1.2 = None
  /\ dom (complytime.ToMap (sample.manifestWorld sample.repeatedOptions)
                           sample.globalOptions "openscap").1.1
     = {["workspace"; "profile"]}
       ∪ list_to_set (map complytime.Name sample.repeatedOptions).
Proof.
  apply (ToMap_keys _ _ _ _ (manifestRead_sample sample.repeatedOptions)).
  repeat constructor.
Defined.

Lemma ToMap_last_option_decides_witness :
  (complytime.ToMap (sample.manifestWorld sample.repeatedOptions)
                    sample.globalOptions "openscap").1.1 !! "datastream"
  = Some "new.xml".
Proof.
  refine (ToMap_last_option_decides
            (sample.manifestWorld sample.repeatedOptions)
            sample.globalOptions "openscap"
            [ complytime.mkConfigurationOption "datastream" "" false
                                               (Some "old.xml");
              complytime.mkConfigurationOption "profile" "" false
                                               (Some "other") ]
            [ complytime.mkConfigurationOption "results" "" false None ]
            (complytime.mkConfigurationOption "datastream" "" true
                                              (Some "new.xml"))
            (manifestRead_sample sample.repeatedOptions) _ eq_refl _).
  - repeat constructor.
  - repeat constructor. discriminate.
Defined.

Lemma Plugins_selections_handed_over_witness :
  exists pluginSelectionsMap,
    (complytime.Plugins (sample.host sample.overridingOptions)
                        (sample.manager sample.overridingOptions)
                        (complytime.mkInputContext ["openscap"])
                        sample.globalOptions).1
    = (Some {["openscap" :=
                complytime.getSelections pluginSelectionsMap "openscap"]},
       Some complytime.manager_Clean, None)
    /\ complytime.getSelections pluginSelectionsMap "openscap" !! "workspace"
       = Some "/ws"
    /\ complytime.getSelections pluginSelectionsMap "openscap" !! "profile"
       = Some "cis".
Proof.
  assert (Hids : complytime.range_order
                   (sample.host sample.overridingOptions)
                   {["openscap" :=
                       complytime.mkManifest sample.overridingOptions]}
                 = ["openscap"]) by reflexivity.
  destruct (Plugins_selections_handed_over
              (sample.host sample.overridingOptions)
              (sample.manager sample.overridingOptions)
              (complytime.mkInputContext ["openscap"])
              sample.globalOptions
              {["openscap" := complytime.mkManifest sample.overridingOptions]}
              eq_refl eq_refl)
    as (pluginSelectionsMap & Hrun & Hhand).
  { rewrite Hids. repeat constructor. }
  exists pluginSelectionsMap. split; [exact Hrun | ].
  destruct (proj1 (Hhand "openscap")) as (_ & Hws & Hpr & _).
  { rewrite Hids. by left. }
  by split.
Defined.

Lemma Plugins_without_config_root_witness :
  exists pluginSelectionsMap,
    complytime.Plugins sample.bareHost
                       (sample.manager sample.overridingOptions)
                       (complytime.mkInputContext ["openscap"])
                       (complytime.mkPluginOptions "/ws" "cis" "")
    = (Some {["openscap" :=
                complytime.getSelections pluginSelectionsMap "openscap"]},
       Some complytime.manager_Clean, None, [])
    /\ complytime.getSelections pluginSelectionsMap "openscap"
       = <["profile" := "cis"]> (<["workspace" := "/ws"]> ∅).
Proof.
  destruct (Plugins_without_config_root
              sample.bareHost (sample.manager sample.overridingOptions)
              (complytime.mkInputContext ["openscap"])
              (complytime.mkPluginOptions "/ws" "cis" "")
              {["openscap" := complytime.mkManifest sample.overridingOptions]}
              (errors_New "no such file") eq_refl eq_refl)
    as (pluginSelectionsMap & Hrun & Hhand); [discriminate .. | reflexivity | ].
  exists pluginSelectionsMap. split; [exact Hrun | ].
  apply Hhand.
  assert (Hids : complytime.range_order
                   sample.bareHost
                   {["openscap" :=
                       complytime.mkManifest sample.overridingOptions]}
                 = ["openscap"]) by (vm_compute; reflexivity).
  rewrite Hids. left. reflexivity.
Defined.
